(** * pact-go provider verifier: the middleware pipeline and its orchestrator

    A shallow embedding of [provider/verifier.go].  The Go code is a set of
    HTTP middlewares (closures over an [http.Handler]) and one orchestrating
    function.  Everything these functions do is a call on something they do
    not own: the response writer, the user's hooks and state handlers, the
    next handler of the chain, the logger, the proxy, the verification
    engine.  The embedding therefore writes each Go function as a program
    over the calls it makes, and the properties are statements about every
    sequence of calls such a program can produce. *)

From stdpp Require Import base option strings gmap list pretty.
From Stdlib Require Import ZArith Lia Ascii.

Local Open Scope Z_scope.
#[local] Set Warnings "-clear-no-such-hyp".

(** ** Programs over external calls *)

Module Prog.

(** The two ways a Go function stops without returning: [panic] (reached
    through [log.Panic]) and [os.Exit] (reached through [log.Fatal]). *)
Inductive Abort : Type :=
| Panic
| OsExit (code : Z).

Inductive Outcome (A : Type) : Type :=
| Returned (a : A)
| Aborted (s : Abort).
Arguments Returned {A} a.
Arguments Aborted {A} s.

(** [t E A]: a computation that performs calls [e : E X], receives their
    answers in [X], and returns an [A] unless it stops first. *)
Inductive t (E : Type -> Type) (A : Type) : Type :=
| Ret (a : A)
| Stop (s : Abort)
| Vis (X : Type) (e : E X) (k : X -> t E A).
Arguments Ret {E A} a.
Arguments Stop {E A} s.
Arguments Vis {E A X} e k.

Fixpoint bind {E A B} (p : t E A) (f : A -> t E B) : t E B :=
  match p with
  | Ret a => f a
  | Stop s => Stop s
  | Vis e k => Vis e (fun x => bind (k x) f)
  end.

Definition call {E X} (e : E X) : t E X := Vis e Ret.

(** [runs obs p tr o]: [tr] is the sequence of calls, each paired by [obs]
    with the answer it received, of one complete execution of [p], and
    [o] is how that execution ended.  The answers are not constrained:
    the environment is arbitrary. *)
Fixpoint runs {E Ev} (obs : forall X, E X -> X -> Ev) {A}
    (p : t E A) (tr : list Ev) (o : Outcome A) : Prop :=
  match p with
  | Ret a => tr = [] /\ o = Returned a
  | Stop s => tr = [] /\ o = Aborted s
  | Vis e k => exists x tr', tr = obs _ e x :: tr' /\ runs obs (k x) tr' o
  end.

(** [exec obs env p]: the execution of [p] in which the environment
    answers every call [e] with [env _ e]. *)
Fixpoint exec {E Ev} (obs : forall X, E X -> X -> Ev)
    (env : forall X, E X -> X) {A} (p : t E A) : list Ev * Outcome A :=
  match p with
  | Ret a => ([], Returned a)
  | Stop s => ([], Aborted s)
  | Vis e k =>
      let x := env _ e in
      let '(tr, o) := exec obs env (k x) in
      (obs _ e x :: tr, o)
  end.

End Prog.

Export Prog (Abort, Panic, OsExit, Outcome, Returned, Aborted, Ret, Stop, Vis, call, runs, exec).

#[export] Instance prog_ret {E} : MRet (Prog.t E) := fun A a => Prog.Ret a.
#[export] Instance prog_bind {E} : MBind (Prog.t E) := fun A B f p => Prog.bind p f.

(** ** Go values the verifier handles *)

(** A Go [error] value.  [fmt.Errorf] is kept symbolic: the format and its
    operands, so that nothing below depends on how [%s] prints a duration. *)
Inductive fmtArg : Type :=
| ArgString (s : string)
| ArgInt (n : Z)
| ArgDuration (nanoseconds : Z).

Inductive error : Type :=
| errorString (msg : string)
| Errorf (format : string) (args : list fmtArg).

(** User callbacks are Go function values.  The model names them; running
    one is a call answered by the environment. *)
Inductive Hook : Type := HookFunc (id : nat).
Inductive StateHandler : Type := StateHandlerFunc (id : nat).
Inductive MessageHandler : Type := MessageHandlerFunc (id : nat).
Inductive TLSConfig : Type := TLSConfigRef (id : nat).
Inductive NativeHandle : Type := NativeVerifier (name version : string).
Inductive outputWriter : Type := OutputWriterRef (id : nat).

(** The part of [*http.Request] the middlewares read. *)
Record Request : Type := {
  Method : string;
  URL_Path : string;
  RequestURI : string;
  Body : string }.

(** [uint16(port)] *)
Definition uint16 (n : Z) : Z := n mod 65536.

Record Transport : Type := {
  Path : string;
  Protocol : string;
  Port : Z }.

Definition providerStatesSetupPath : string := "/__setup".

Section Model.

(** [Value] stands for Go's [interface{}]: whatever a JSON document decodes
    to, or a state handler chooses to return. *)
Context {Value : Type}.

(** A Go map of type [map[string]interface{}]; [None] is the nil map. *)
Definition GoMap : Type := option (gmap string Value).

(** [delete(m, k)]; deleting from a nil map does nothing. *)
Definition go_delete (k : string) (m : GoMap) : GoMap := delete k <$> m.

(** [models.ProviderState] *)
Record ProviderState : Type := {
  Name : string;
  Parameters : GoMap }.

(** [stateHandlerAction], the decoded state-change instruction *)
Record stateHandlerAction : Type := {
  Action : string;
  State : string;
  Params : GoMap }.

(** *** Calls made while serving one HTTP request *)

Inductive HttpE : Type -> Type :=
| Log (line : string) : HttpE unit
| CallHook (h : Hook) : HttpE (option error)
| CallStateHandler (sf : StateHandler) (setup : bool) (st : ProviderState)
    : HttpE (GoMap * option error)
| ServeDownstream (r : Request) : HttpE unit
| WriteHeader (code : Z) : HttpE unit
| HeaderAdd (key value : string) : HttpE unit
| Write (data : string) : HttpE unit.

Inductive HttpEvent : Type :=
| EvLog (line : string)
| EvHook (h : Hook) (err : option error)
| EvStateHandler (sf : StateHandler) (setup : bool) (st : ProviderState)
    (res : GoMap) (err : option error)
| EvDownstream (r : Request)
| EvWriteHeader (code : Z)
| EvHeaderAdd (key value : string)
| EvWrite (data : string).

Definition http_obs (X : Type) (e : HttpE X) : X -> HttpEvent :=
  match e in HttpE X return X -> HttpEvent with
  | Log line => fun _ => EvLog line
  | CallHook h => fun err => EvHook h err
  | CallStateHandler sf setup st => fun r => EvStateHandler sf setup st r.1 r.2
  | ServeDownstream r => fun _ => EvDownstream r
  | WriteHeader code => fun _ => EvWriteHeader code
  | HeaderAdd k v => fun _ => EvHeaderAdd k v
  | Write data => fun _ => EvWrite data
  end.

(** [http.Handler] with its [ServeHTTP(w, r)]; the writer [w] is the one
    the calls [WriteHeader], [HeaderAdd] and [Write] act on. *)
Definition Handler : Type := Request -> Prog.t HttpE unit.

(** [proxy.Middleware] *)
Definition Middleware : Type := Handler -> Handler.

(** The handler at the end of the chain, the reverse proxy's forwarder to
    the provider.  It is not part of [verifier.go]; one call stands for it. *)
Definition downstream : Handler := fun r => call (ServeDownstream r).

(** *** The response a client of [net/http] receives

    [http.ResponseWriter] as [net/http] implements it: the first
    [WriteHeader] fixes the status and the headers, later ones are ignored;
    a [Write] before any [WriteHeader] sends status 200 first. *)
Record Response : Type := {
  handlerHeader : list (string * string);
  wroteHeader : bool;
  status : Z;
  sentHeader : list (string * string);
  written : string }.

Definition newResponse : Response :=
  {| handlerHeader := []; wroteHeader := false; status := 0;
     sentHeader := []; written := "" |}.

Definition writeHeader (code : Z) (w : Response) : Response :=
  if wroteHeader w then w
  else {| handlerHeader := handlerHeader w; wroteHeader := true; status := code;
          sentHeader := handlerHeader w; written := written w |}.

Definition headerAdd (k v : string) (w : Response) : Response :=
  {| handlerHeader := handlerHeader w ++ [(k, v)]; wroteHeader := wroteHeader w;
     status := status w; sentHeader := sentHeader w; written := written w |}.

Definition write (data : string) (w : Response) : Response :=
  let w := writeHeader 200 w in
  {| handlerHeader := handlerHeader w; wroteHeader := wroteHeader w;
     status := status w; sentHeader := sentHeader w; written := written w +:+ data |}.

Definition respond (w : Response) (ev : HttpEvent) : Response :=
  match ev with
  | EvWriteHeader code => writeHeader code w
  | EvHeaderAdd k v => headerAdd k v w
  | EvWrite data => write data w
  | _ => w
  end.

(** The response after the calls of [tr] on a writer in state [w]. *)
Definition response (w : Response) (tr : list HttpEvent) : Response :=
  foldl respond w tr.

(** When a handler returns without any [WriteHeader] or [Write], the
    server sends status 200 with the headers set so far. *)
Definition finish (w : Response) : Response := writeHeader 200 w.

End Model.

Arguments GoMap : clear implicits.
Arguments ProviderState : clear implicits.
Arguments stateHandlerAction : clear implicits.
Arguments HttpE : clear implicits.
Arguments HttpEvent : clear implicits.
Arguments Handler : clear implicits.
Arguments Middleware : clear implicits.
Arguments http_obs : clear implicits.

(** ** Library functions [verifier.go] calls

    [encoding/json] at the three types it is used at, and [net/url].  They
    are pure functions of their input; the verifier is modelled for any
    implementation of them. *)

(** What [verifier.go] reads of a parsed [*url.URL]. *)
Record URL : Type := {
  url_Scheme : string;
  url_Hostname : string;
  url_Port : string;
  url_Path : string }.

Class GoLib (Value : Type) : Type := {
  (** [json.Unmarshal(data, &state)] with [state] a zero [stateHandlerAction];
      [None] when it returns an error *)
  json_Unmarshal_stateHandlerAction : string -> option (stateHandlerAction Value);
  (** [json.Unmarshal(data, &params)] with [params] a nil
      [models.ProviderStateResponse]; [None] when it returns an error *)
  json_Unmarshal_ProviderStateResponse : string -> option (GoMap Value);
  (** [json.Marshal(res)] on a non-nil [models.ProviderStateResponse] *)
  json_Marshal : gmap string Value -> option string;
  (** [url.Parse] *)
  url_Parse : string -> option URL;
  (** [message.CreateMessageHandler], defined in another package *)
  message_CreateMessageHandler : gmap string MessageHandler -> Middleware Value }.

Section Middlewares.

Context {Value : Type} `{!GoLib Value}.

Definition log (line : string) : Prog.t (HttpE Value) unit := call (Log line).

(** [beforeEachMiddleware] *)
Definition beforeEachMiddleware (BeforeEach : Hook) : Middleware Value :=
  fun next r =>
    (if decide (URL_Path r = providerStatesSetupPath) then
       log "[DEBUG] executing before hook";;
       err ← call (CallHook BeforeEach);
       match err with
       | Some _ =>
           log "[ERROR] error executing before hook:";;
           call (WriteHeader 500)
       | None => mret tt
       end
     else mret tt);;
    next r.

(** [afterEachMiddleware] *)
Definition afterEachMiddleware (AfterEach : Hook) : Middleware Value :=
  fun next r =>
    next r;;
    if decide (URL_Path r ≠ providerStatesSetupPath) then
      log "[DEBUG] executing after hook";;
      err ← call (CallHook AfterEach);
      match err with
      | Some _ =>
          log "[ERROR] error executing after hook:";;
          call (WriteHeader 500)
      | None => mret tt
      end
    else mret tt.

(** [stateHandlerMiddleware].  [io.Copy(buf, r.Body)] reads the whole body;
    its error is discarded by the code.  The inner match returns [false]
    where the Go code returns early and [true] where it falls through to
    the final [w.WriteHeader(http.StatusOK)]. *)
Definition stateHandlerMiddleware (stateHandlers : gmap string StateHandler)
    : Middleware Value :=
  fun next r =>
    if decide (URL_Path r = providerStatesSetupPath) then
      log "[INFO] executing state handler middleware";;
      let buf := Body r in
      log "[TRACE] state handler received raw input";;
      let decoded := json_Unmarshal_stateHandlerAction buf in
      log "[TRACE] state handler parsed input (without params)";;
      match decoded with
      | None =>
          log "[ERROR] unable to decode incoming state change payload";;
          call (WriteHeader 500)
      | Some state =>
          match json_Unmarshal_ProviderStateResponse buf with
          | None =>
              log "[ERROR] unable to decode incoming state change payload";;
              call (WriteHeader 500)
          | Some params =>
              let params := go_delete "action" params in
              let params := go_delete "state" params in
              let state :=
                {| Action := Action state; State := State state; Params := params |} in
              log "[TRACE] state handler completed parsing input (with params)";;
              found ←
                match stateHandlers !! State state with
                | None =>
                    log "[WARN] no state handler found for state: %v";;
                    mret true
                | Some sf =>
                    out ← call (CallStateHandler sf
                              (bool_decide (Action state = "setup"))
                              {| Name := State state; Parameters := Params state |});
                    match out.2 with
                    | Some _ =>
                        log "[ERROR] state handler for '%v' errored: %v";;
                        call (WriteHeader 500);;
                        mret false
                    | None =>
                        match out.1 with
                        | Some res =>
                            log "[TRACE] returning values from provider state (raw)";;
                            let marshalled := json_Marshal res in
                            log "[TRACE] returning values from provider state (JSON)";;
                            match marshalled with
                            | None =>
                                log "[ERROR] state handler for '%v' errored: %v";;
                                call (WriteHeader 500);;
                                mret false
                            | Some resBody =>
                                call (HeaderAdd "content-type" "application/json");;
                                call (Write resBody);;
                                mret true
                            end
                        | None => mret true
                        end
                    end
                end;
              if found : bool then call (WriteHeader 200) else mret tt
          end
      end
    else
      log "[TRACE] skipping state handler for request";;
      next r.

End Middlewares.

(** ** The orchestrator: [verifyProviderRaw] and [WaitForPort] *)

(** [time.Duration] counts nanoseconds. *)
Definition Millisecond : Z := 1000000.
Definition Second : Z := 1000 * Millisecond.

(** [Verifier] *)
Record Verifier : Type := {
  ClientTimeout : Z;
  Hostname : string;
  handle : NativeHandle }.

(** What a goroutine started by the orchestrator runs. *)
Inductive Goroutine : Type :=
| ListenAndServe (addr : string).

Section Orchestrator.

Context {Value : Type} `{!GoLib Value}.

(** The fields of [VerifyRequest] that [verifyProviderRaw] reads or writes. *)
Record VerifyRequest : Type := {
  ProviderBaseURL : string;
  BeforeEach : option Hook;
  AfterEach : option Hook;
  StateHandlers : gmap string StateHandler;
  MessageHandlers : gmap string MessageHandler;
  RequestFilter : option (Middleware Value);
  CustomTLSConfig : option TLSConfig;
  Transports : list Transport;
  ProviderStatesSetupURL : string }.

Definition set_ProviderBaseURL (u : string) (rq : VerifyRequest) : VerifyRequest :=
  {| ProviderBaseURL := u; BeforeEach := BeforeEach rq; AfterEach := AfterEach rq;
     StateHandlers := StateHandlers rq; MessageHandlers := MessageHandlers rq;
     RequestFilter := RequestFilter rq; CustomTLSConfig := CustomTLSConfig rq;
     Transports := Transports rq;
     ProviderStatesSetupURL := ProviderStatesSetupURL rq |}.

Definition set_Transports (ts : list Transport) (rq : VerifyRequest) : VerifyRequest :=
  {| ProviderBaseURL := ProviderBaseURL rq; BeforeEach := BeforeEach rq;
     AfterEach := AfterEach rq; StateHandlers := StateHandlers rq;
     MessageHandlers := MessageHandlers rq; RequestFilter := RequestFilter rq;
     CustomTLSConfig := CustomTLSConfig rq; Transports := ts;
     ProviderStatesSetupURL := ProviderStatesSetupURL rq |}.

Definition set_ProviderStatesSetupURL (u : string) (rq : VerifyRequest) : VerifyRequest :=
  {| ProviderBaseURL := ProviderBaseURL rq; BeforeEach := BeforeEach rq;
     AfterEach := AfterEach rq; StateHandlers := StateHandlers rq;
     MessageHandlers := MessageHandlers rq; RequestFilter := RequestFilter rq;
     CustomTLSConfig := CustomTLSConfig rq; Transports := Transports rq;
     ProviderStatesSetupURL := u |}.

(** [proxy.Options] *)
Record Options : Type := {
  TargetAddress : string;
  TargetScheme : string;
  TargetPath : string;
  opt_Middleware : list (Middleware Value);
  InternalRequestPathPrefix : string;
  opt_CustomTLSConfig : option TLSConfig }.

(** The two cases of the [select] in [WaitForPort]. *)
Inductive Fired : Type :=
| TimeoutFired
| TickFired.

Inductive OrchE : Type -> Type :=
| OLog (line : string) : OrchE unit
| GetFreePort : OrchE (Z * option error)
| Go (g : Goroutine) : OrchE unit
| Validate (rq : VerifyRequest) (h : NativeHandle) : OrchE (option error)
| HTTPReverseProxy (opts : Options) : OrchE (Z * option error)
| Select : OrchE Fired
| Dial (network addr : string) : OrchE (option error)
| Verify (rq : VerifyRequest) (h : NativeHandle) (w : outputWriter)
    : OrchE (option error).

Inductive OrchEvent : Type :=
| EvOLog (line : string)
| EvGetFreePort (port : Z) (err : option error)
| EvGo (g : Goroutine)
| EvValidate (rq : VerifyRequest) (h : NativeHandle) (err : option error)
| EvHTTPReverseProxy (opts : Options) (port : Z) (err : option error)
| EvSelect (f : Fired)
| EvDial (network addr : string) (err : option error)
| EvVerify (rq : VerifyRequest) (h : NativeHandle) (w : outputWriter)
    (err : option error).

Definition orch_obs (X : Type) (e : OrchE X) : X -> OrchEvent :=
  match e in OrchE X return X -> OrchEvent with
  | OLog line => fun _ => EvOLog line
  | GetFreePort => fun r => EvGetFreePort r.1 r.2
  | Go g => fun _ => EvGo g
  | Validate rq h => fun err => EvValidate rq h err
  | HTTPReverseProxy opts => fun r => EvHTTPReverseProxy opts r.1 r.2
  | Select => fun f => EvSelect f
  | Dial network addr => fun err => EvDial network addr err
  | Verify rq h w => fun err => EvVerify rq h w err
  end.

Definition olog (line : string) : Prog.t OrchE unit := call (OLog line).

(** [log.Panic]: print, then panic. *)
Definition log_Panic {A} (line : string) : Prog.t OrchE A :=
  olog line;; Stop Panic.

(** [log.Fatal]: print, then [os.Exit(1)]. *)
Definition log_Fatal {A} (line : string) : Prog.t OrchE A :=
  olog line;; Stop (OsExit 1).

(** [validateConfig]; the receiver is updated in place and the error is
    always nil. *)
Definition validateConfig (v : Verifier) : Verifier * option error :=
  let v := if decide (ClientTimeout v = 0)
           then {| ClientTimeout := 10 * Second; Hostname := Hostname v; handle := handle v |}
           else v in
  let v := if decide (Hostname v = "")
           then {| ClientTimeout := ClientTimeout v; Hostname := "localhost"; handle := handle v |}
           else v in
  (v, None).

(** [startDefaultHTTPServer]: serve an empty mux on [Hostname:port]. *)
Definition startDefaultHTTPServer (v : Verifier) (port : Z) : Goroutine :=
  ListenAndServe (Hostname v +:+ ":" +:+ pretty port).

(** The loop of [WaitForPort].  Every [TickFired] costs 50ms of the
    timeout, so after [polls] of them the timer has fired and the [select]
    can only take its first case; before that the environment decides
    which channel is ready first. *)
Fixpoint WaitForPort_loop (polls : nat) (port : Z) (network address : string)
    (timeoutDuration : Z) (message : string) : Prog.t OrchE (option error) :=
  let timed_out : Prog.t OrchE (option error) :=
    olog "[ERROR] expected server to start < %s. %s";;
    mret (Some (Errorf "expected server to start < %s. %s"
                  [ArgDuration timeoutDuration; ArgString message])) in
  match polls with
  | O => timed_out
  | S polls' =>
      f ← call Select;
      match f with
      | TimeoutFired => timed_out
      | TickFired =>
          err ← call (Dial network (address +:+ ":" +:+ pretty port));
          match err with
          | None => mret None
          | Some _ => WaitForPort_loop polls' port network address timeoutDuration message
          end
      end
  end.

Definition max_polls (timeoutDuration : Z) : nat :=
  S (Z.to_nat (timeoutDuration / (50 * Millisecond))).

(** [WaitForPort] *)
Definition WaitForPort (port : Z) (network address : string)
    (timeoutDuration : Z) (message : string) : Prog.t OrchE (option error) :=
  olog "[DEBUG] waiting for port";;
  WaitForPort_loop (max_polls timeoutDuration) port network address timeoutDuration message.

(** [verifyProviderRaw].  [request] is a by-value parameter: the updates
    below are to the callee's copy, the one later handed to [Verify]. *)
Definition verifyProviderRaw (v : Verifier) (request : VerifyRequest)
    (writer : outputWriter) : Prog.t OrchE (option error) :=
  let '(v, err) := validateConfig v in
  match err with
  | Some e => mret (Some e)
  | None =>
      request ←
        (if decide (ProviderBaseURL request = "") then
           olog "[DEBUG] setting up a dummy server for verification, as none was provided";;
           fp ← call GetFreePort;
           match fp.2 with
           | Some _ => log_Panic (A:=unit) "unable to allocate a port for verification:"
           | None => mret tt
           end;;
           call (Go (startDefaultHTTPServer v fp.1));;
           mret (set_ProviderBaseURL ("http://localhost:" +:+ pretty fp.1) request)
         else mret request);
      err ← call (Validate request (handle v));
      match err with
      | Some e => mret (Some e)
      | None =>
          match url_Parse (ProviderBaseURL request) with
          | None => log_Panic "unable to parse the provider URL"
          | Some u =>
              let m : list (Middleware Value) := [] in
              let m := match BeforeEach request with
                       | Some h => m ++ [beforeEachMiddleware h]
                       | None => m
                       end in
              let m := match AfterEach request with
                       | Some h => m ++ [afterEachMiddleware h]
                       | None => m
                       end in
              let m := if decide (0 < size (StateHandlers request))%nat
                       then m ++ [stateHandlerMiddleware (StateHandlers request)]
                       else m in
              let m := if decide (0 < size (MessageHandlers request))%nat
                       then m ++ [message_CreateMessageHandler (MessageHandlers request)]
                       else m in
              let m := match RequestFilter request with
                       | Some f => m ++ [f]
                       | None => m
                       end in
              let opts :=
                {| TargetAddress := url_Hostname u +:+ ":" +:+ url_Port u;
                   TargetScheme := url_Scheme u;
                   TargetPath := url_Path u;
                   opt_Middleware := m;
                   InternalRequestPathPrefix := providerStatesSetupPath;
                   opt_CustomTLSConfig := CustomTLSConfig request |} in
              started ← call (HTTPReverseProxy opts);
              let port := started.1 in
              let request :=
                if decide (0 < size (MessageHandlers request))%nat
                then set_Transports
                       (Transports request ++
                          [{| Path := "/__messages"; Protocol := "message";
                              Port := uint16 port |}])
                       request
                else request in
              let request :=
                if decide (ProviderStatesSetupURL request = ""
                           /\ (0 < size (StateHandlers request))%nat)
                then set_ProviderStatesSetupURL
                       ("http://localhost:" +:+ pretty port +:+ providerStatesSetupPath)
                       request
                else request in
              portErr ←
                WaitForPort port "tcp" "localhost" (ClientTimeout v)
                  ("Timed out waiting for http verification proxy on port "
                     +:+ pretty port +:+ " - check for errors");
              match portErr with
              | Some e =>
                  log_Fatal (A:=unit) "Error:";;
                  mret (Some e)
              | None =>
                  olog "[DEBUG] pact provider verification";;
                  call (Verify request (handle v) writer)
              end
          end
      end
  end.

(** *** The stages of [verifyProviderRaw]

    The same code, block by block, so that each block can be reasoned about
    on its own; [verifyProviderRaw_stages] below shows that chaining them
    is [verifyProviderRaw]. *)

(** The block [if request.ProviderBaseURL == ""]. *)
Definition dummy_provider (v : Verifier) (request : VerifyRequest)
    : Prog.t OrchE VerifyRequest :=
  if decide (ProviderBaseURL request = "") then
    olog "[DEBUG] setting up a dummy server for verification, as none was provided";;
    fp ← call GetFreePort;
    match fp.2 with
    | Some _ => log_Panic (A:=unit) "unable to allocate a port for verification:"
    | None => mret tt
    end;;
    call (Go (startDefaultHTTPServer v fp.1));;
    mret (set_ProviderBaseURL ("http://localhost:" +:+ pretty fp.1) request)
  else mret request.

(** The list [m]. *)
Definition middlewares (request : VerifyRequest) : list (Middleware Value) :=
  let m : list (Middleware Value) := [] in
  let m := match BeforeEach request with
           | Some h => m ++ [beforeEachMiddleware h]
           | None => m
           end in
  let m := match AfterEach request with
           | Some h => m ++ [afterEachMiddleware h]
           | None => m
           end in
  let m := if decide (0 < size (StateHandlers request))%nat
           then m ++ [stateHandlerMiddleware (StateHandlers request)]
           else m in
  let m := if decide (0 < size (MessageHandlers request))%nat
           then m ++ [message_CreateMessageHandler (MessageHandlers request)]
           else m in
  match RequestFilter request with
  | Some f => m ++ [f]
  | None => m
  end.

(** [opts] *)
Definition proxy_options (u : URL) (request : VerifyRequest) : Options :=
  {| TargetAddress := url_Hostname u +:+ ":" +:+ url_Port u;
     TargetScheme := url_Scheme u;
     TargetPath := url_Path u;
     opt_Middleware := middlewares request;
     InternalRequestPathPrefix := providerStatesSetupPath;
     opt_CustomTLSConfig := CustomTLSConfig request |}.

(** The block [if len(request.MessageHandlers) > 0] after the proxy start. *)
Definition message_transport (port : Z) (request : VerifyRequest) : VerifyRequest :=
  if decide (0 < size (MessageHandlers request))%nat
  then set_Transports
         (Transports request ++
            [{| Path := "/__messages"; Protocol := "message"; Port := uint16 port |}])
         request
  else request.

(** The block that defaults [request.ProviderStatesSetupURL]. *)
Definition states_setup_url (port : Z) (request : VerifyRequest) : VerifyRequest :=
  if decide (ProviderStatesSetupURL request = ""
             /\ (0 < size (StateHandlers request))%nat)
  then set_ProviderStatesSetupURL
         ("http://localhost:" +:+ pretty port +:+ providerStatesSetupPath) request
  else request.

(** From [WaitForPort] to the end. *)
Definition verify_when_ready (v : Verifier) (request : VerifyRequest)
    (writer : outputWriter) (port : Z) : Prog.t OrchE (option error) :=
  portErr ←
    WaitForPort port "tcp" "localhost" (ClientTimeout v)
      ("Timed out waiting for http verification proxy on port "
         +:+ pretty port +:+ " - check for errors");
  match portErr with
  | Some e =>
      log_Fatal (A:=unit) "Error:";;
      mret (Some e)
  | None =>
      olog "[DEBUG] pact provider verification";;
      call (Verify request (handle v) writer)
  end.

(** The calls [WaitForPort] makes. *)
Definition port_wait_event (ev : OrchEvent) : Prop :=
  match ev with
  | EvOLog _ | EvSelect _ | EvDial _ _ _ => True
  | _ => False
  end.

End Orchestrator.

Arguments VerifyRequest : clear implicits.
Arguments Options : clear implicits.
Arguments OrchE : clear implicits.
Arguments OrchEvent : clear implicits.
Arguments orch_obs : clear implicits.
Arguments WaitForPort : simpl never.
Arguments dummy_provider : simpl never.
Arguments verify_when_ready : simpl never.
Arguments proxy_options : simpl never.
Arguments message_transport : simpl never.
Arguments states_setup_url : simpl never.

(** ** An environment for the scenarios of the specification

    The properties below hold for every implementation of the library
    functions and every behaviour of the callbacks.  To run the middlewares
    on the documents of the specification's scenarios, this module fixes
    one: the answers [encoding/json] and [net/url] give on those documents
    (and [None] elsewhere, where the scenarios do not go), and callbacks
    with fixed results. *)

Module Scenario.

(** The Go values the scenarios put in maps; [VChan] is a channel, which
    [json.Marshal] refuses. *)
Inductive value : Type :=
| VString (s : string)
| VNumber (n : Z)
| VChan.

#[export] Instance value_eq_dec : EqDecision value.
Proof. solve_decision. Defined.

Definition quoted (s : string) : string :=
  String "034"%char (s +:+ String "034"%char EmptyString).

Definition instruction (action : string) : string :=
  "{" +:+ quoted "action" +:+ ":" +:+ quoted action +:+ ","
      +:+ quoted "state" +:+ ":" +:+ quoted "User foo exists" +:+ ","
      +:+ quoted "id" +:+ ":" +:+ quoted "foo" +:+ "}".

Definition setup_body : string := instruction "setup".
Definition teardown_body : string := instruction "teardown".
Definition malformed_body : string := "{" +:+ quoted "action" +:+ ":".

Definition top_level (action : string) : gmap string value :=
  {[ "action" := VString action; "state" := VString "User foo exists";
     "id" := VString "foo" ]}.

Definition user_id : gmap string value := {[ "userId" := VNumber 42 ]}.
Definition user_id_json : string := "{" +:+ quoted "userId" +:+ ":42}".
Definition unencodable : gmap string value := {[ "conn" := VChan ]}.

Definition Unmarshal_stateHandlerAction (data : string)
    : option (stateHandlerAction value) :=
  if decide (data = setup_body)
  then Some {| Action := "setup"; State := "User foo exists"; Params := None |}
  else if decide (data = teardown_body)
  then Some {| Action := "teardown"; State := "User foo exists"; Params := None |}
  else None.

Definition Unmarshal_ProviderStateResponse (data : string) : option (GoMap value) :=
  if decide (data = setup_body) then Some (Some (top_level "setup"))
  else if decide (data = teardown_body) then Some (Some (top_level "teardown"))
  else None.

Definition Marshal (m : gmap string value) : option string :=
  if decide (m = user_id) then Some user_id_json else None.

Definition provider_url : string := "http://localhost:8080".
Definition free_port : Z := 50123.
Definition proxy_port : Z := 50124.

Definition Parse (rawURL : string) : option URL :=
  if decide (rawURL = provider_url)
  then Some {| url_Scheme := "http"; url_Hostname := "localhost";
               url_Port := "8080"; url_Path := EmptyString |}
  else if decide (rawURL = "http://localhost:" +:+ pretty free_port)
  then Some {| url_Scheme := "http"; url_Hostname := "localhost";
               url_Port := pretty free_port; url_Path := EmptyString |}
  else None.

#[export] Instance lib : GoLib value := {|
  json_Unmarshal_stateHandlerAction := Unmarshal_stateHandlerAction;
  json_Unmarshal_ProviderStateResponse := Unmarshal_ProviderStateResponse;
  json_Marshal := Marshal;
  url_Parse := Parse;
  message_CreateMessageHandler := fun _ next => next |}.

(** Callbacks.  Hook 0 succeeds, any other fails.  State handler 0 returns
    [user_id], 1 returns nil, 2 fails, any other returns [unencodable]. *)
Definition failed : error := errorString "failed".

Definition run_hook (h : Hook) : option error :=
  match h with
  | HookFunc O => None
  | HookFunc (S _) => Some failed
  end.

Definition run_handler (sf : StateHandler) : GoMap value * option error :=
  match sf with
  | StateHandlerFunc 0 => (Some user_id, None)
  | StateHandlerFunc 1 => (None, None)
  | StateHandlerFunc 2 => (None, Some failed)
  | StateHandlerFunc _ => (Some unencodable, None)
  end.

Definition http_env (X : Type) (e : HttpE value X) : X :=
  match e in HttpE _ X return X with
  | Log _ => tt
  | CallHook h => run_hook h
  | CallStateHandler sf _ _ => run_handler sf
  | ServeDownstream _ => tt
  | WriteHeader _ => tt
  | HeaderAdd _ _ => tt
  | Write _ => tt
  end.

(** [serve h r]: the calls of handler [h] on request [r], and how it ends. *)
Definition serve (h : Handler value) (r : Request)
    : list (HttpEvent value) * Outcome unit :=
  exec (http_obs value) http_env (h r).

Definition post (path body : string) : Request :=
  {| Method := "POST"; URL_Path := path; RequestURI := path; Body := body |}.

Definition registry : gmap string StateHandler :=
  {[ "User foo exists" := StateHandlerFunc 0 ]}.

(** The orchestrator's environment: what the port allocator, the [select]
    and the dial answer; the engine and the proxy succeed. *)
Record Answers : Type := {
  allocated : Z * option error;
  fired : Fired;
  dialled : option error }.

Definition orch_env (a : Answers) (X : Type) (e : OrchE value X) : X :=
  match e in OrchE _ X return X with
  | OLog _ => tt
  | GetFreePort => allocated a
  | Go _ => tt
  | Validate _ _ => None
  | HTTPReverseProxy _ => (proxy_port, None)
  | Select => fired a
  | Dial _ _ => dialled a
  | Verify _ _ _ => None
  end.

Definition reachable : Answers :=
  {| allocated := (free_port, None); fired := TickFired; dialled := None |}.

Definition unreachable : Answers :=
  {| allocated := (free_port, None); fired := TickFired; dialled := Some failed |}.

Definition no_free_port : Answers :=
  {| allocated := (0, Some failed); fired := TickFired; dialled := None |}.

Definition verifier : Verifier :=
  {| ClientTimeout := 0; Hostname := EmptyString;
     handle := NativeVerifier "pact-go" "v2" |}.

(** A verifier that waits 100ms for the proxy: three polls at most. *)
Definition hasty_verifier : Verifier :=
  {| ClientTimeout := 100 * Millisecond; Hostname := EmptyString;
     handle := NativeVerifier "pact-go" "v2" |}.

Definition request (base : string) (handlers : gmap string MessageHandler)
    : VerifyRequest value :=
  {| ProviderBaseURL := base; BeforeEach := None; AfterEach := None;
     StateHandlers := ∅; MessageHandlers := handlers;
     RequestFilter := None; CustomTLSConfig := None; Transports := [];
     ProviderStatesSetupURL := EmptyString |}.

Definition orchestrate (v : Verifier) (a : Answers) (rq : VerifyRequest value)
    : list (OrchEvent value) * Outcome (option error) :=
  exec (orch_obs value) (orch_env a) (verifyProviderRaw v rq (OutputWriterRef 0)).

Definition setup_request : Request := post "/__setup" setup_body.
Definition teardown_request : Request := post "/__setup" teardown_body.
Definition malformed_request : Request := post "/__setup" malformed_body.
Definition users_request : Request := post "/users" EmptyString.
Definition get_setup_request : Request :=
  {| Method := "GET"; URL_Path := "/__setup"; RequestURI := "/__setup";
     Body := setup_body |}.

Definition content_type : string * string := ("content-type", "application/json").

End Scenario.

(** ** Calls seen in a trace *)

Section Projections.

Context {Value : Type}.

(** The hooks called, in order. *)
Definition hooks_called (tr : list (HttpEvent Value)) : list Hook :=
  omap (fun ev => match ev with EvHook h _ => Some h | _ => None end) tr.

(** The requests handed to the downstream handler, in order. *)
Definition requests_forwarded (tr : list (HttpEvent Value)) : list Request :=
  omap (fun ev => match ev with EvDownstream r => Some r | _ => None end) tr.

End Projections.

(** ** The test entry point: [VerifyProvider] *)

Section Test_entry.

Context {Value : Type} `{!GoLib Value}.

(** The calls of [VerifyProvider]: those of the orchestrator, and those on
    [*testing.T].  [TRun name] is [t.Run(name, f)] starting [f]; [TError]
    is the [t.Error] inside it. *)
Inductive TestE : Type -> Type :=
| Orch (X : Type) (e : OrchE Value X) : TestE X
| TRun (name : string) : TestE unit
| TError (err : error) : TestE unit.

Inductive TestEvent : Type :=
| EvOrch (ev : OrchEvent Value)
| EvTRun (name : string)
| EvTError (err : error).

Definition test_obs (X : Type) (e : TestE X) : X -> TestEvent :=
  match e in TestE X return X -> TestEvent with
  | Orch X e => fun x => EvOrch (orch_obs Value X e x)
  | TRun name => fun _ => EvTRun name
  | TError err => fun _ => EvTError err
  end.

(** A program of the orchestrator, run from the test entry point. *)
Fixpoint in_test {A} (p : Prog.t (OrchE Value) A) : Prog.t TestE A :=
  match p with
  | Ret a => Ret a
  | Stop s => Stop s
  | Vis e k => Vis (Orch _ e) (fun x => in_test (k x))
  end.

(** [VerifyProvider]; [t] is also the output writer handed to
    [verifyProviderRaw]. *)
Definition VerifyProvider (v : Verifier) (t : outputWriter)
    (request : VerifyRequest Value) : Prog.t TestE (option error) :=
  err ← in_test (verifyProviderRaw v request t);
  call (TRun "Provider pact verification");;
  match err with
  | Some e => call (TError e)
  | None => mret tt
  end;;
  mret err.

End Test_entry.

Arguments TestE : clear implicits.
Arguments TestEvent : clear implicits.
Arguments test_obs : clear implicits.

(** ** [v3/log.go] *)

Module v3.

Definition LogLevel : Type := string.

Definition logLevelTrace : LogLevel := "TRACE".
Definition logLevelDebug : LogLevel := "DEBUG".
Definition logLevelInfo : LogLevel := "INFO".
Definition logLevelWarn : LogLevel := "WARN".
Definition logLevelError : LogLevel := "ERROR".

Inductive Stream : Type := Stderr.

(** [logutils.LevelFilter], the fields [initLogging] sets. *)
Record LevelFilter : Type := {
  Levels : list LogLevel;
  MinLevel : LogLevel;
  Writer : Stream }.

(** [SetMinLevel], a method on a pointer to the filter *)
Definition SetMinLevel (min : LogLevel) (f : LevelFilter) : LevelFilter :=
  {| Levels := Levels f; MinLevel := min; Writer := Writer f |}.

(** Where the standard logger writes: its default, or, after
    [log.SetOutput(logFilter)], the filter [logFilter] points to. *)
Inductive Output : Type :=
| DefaultOutput
| ThroughLogFilter.

(** The package's variables, and the standard logger's output. *)
Record Package : Type := {
  logFilter : option LevelFilter;
  defaultLogLevel : string;
  log_output : Output }.

(** The package as the file declares it. *)
Definition declared : Package :=
  {| logFilter := None; defaultLogLevel := "INFO"; log_output := DefaultOutput |}.

(** [initLogging]; the second component is what it hands to [log.Println]. *)
Definition initLogging (p : Package) : Package * list string :=
  let p :=
    match logFilter p with
    | None =>
        {| logFilter :=
             Some {| Levels := [logLevelTrace; logLevelDebug; logLevelInfo;
                                logLevelWarn; logLevelError];
                     MinLevel := defaultLogLevel p;
                     Writer := Stderr |};
           defaultLogLevel := defaultLogLevel p;
           log_output := ThroughLogFilter |}
    | Some _ => p
    end in
  (p, ["[DEBUG] initialised logging"]).

Definition quote : string := String "034"%char EmptyString.

(** The format of the error of [SetLogLevel]. *)
Definition invalid_logLevel : string :=
  "invalid logLevel '%s'. Please specify one of "
    +:+ quote +:+ "TRACE" +:+ quote +:+ ", "
    +:+ quote +:+ "DEBUG" +:+ quote +:+ ", "
    +:+ quote +:+ "INFO" +:+ quote +:+ ", "
    +:+ quote +:+ "WARN" +:+ quote +:+ ", "
    +:+ quote +:+ "ERROR" +:+ quote.

(** [SetLogLevel].  With a nil [logFilter], [SetMinLevel] dereferences a
    nil pointer and panics. *)
Definition SetLogLevel (level : LogLevel) (p : Package)
    : Outcome (Package * option error) :=
  if decide (level ∈ [logLevelTrace; logLevelDebug; logLevelError;
                      logLevelInfo; logLevelWarn])
  then
    match logFilter p with
    | None => Aborted Panic
    | Some f =>
        Returned ({| logFilter := Some (SetMinLevel level f);
                     defaultLogLevel := defaultLogLevel p;
                     log_output := log_output p |}, None)
    end
  else Returned (p, Some (Errorf invalid_logLevel [ArgString level])).

(** A call on the package: [initLogging()] or [SetLogLevel(level)]. *)
Inductive Op : Type :=
| Init
| Set_ (level : LogLevel).

(** The package after a sequence of calls, unless one of them panics. *)
Fixpoint after (ops : list Op) (p : Package) : Outcome Package :=
  match ops with
  | [] => Returned p
  | Init :: ops => after ops (initLogging p).1
  | Set_ level :: ops =>
      match SetLogLevel level p with
      | Returned (p, _) => after ops p
      | Aborted s => Aborted s
      end
  end.

End v3.

(** ** More environments and inputs *)

Module Cases.

Import Scenario.

(** What the orchestrator's callees answer; [verify] is the engine. *)
Record Replies : Type := {
  free_port_reply : Z * option error;
  validate_reply : option error;
  proxy_reply : Z * option error;
  select_reply : Fired;
  dial_reply : option error;
  verify_reply : option error }.

Definition orch_env (a : Replies) (X : Type) (e : OrchE value X) : X :=
  match e in OrchE _ X return X with
  | OLog _ => tt
  | GetFreePort => free_port_reply a
  | Go _ => tt
  | Validate _ _ => validate_reply a
  | HTTPReverseProxy _ => proxy_reply a
  | Select => select_reply a
  | Dial _ _ => dial_reply a
  | Verify _ _ _ => verify_reply a
  end.

Definition test_env (a : Replies) (X : Type) (e : TestE value X) : X :=
  match e in TestE _ X return X with
  | Orch X e => orch_env a X e
  | TRun _ => tt
  | TError _ => tt
  end.

(** Everything succeeds and the pacts verify. *)
Definition all_well : Replies :=
  {| free_port_reply := (free_port, None); validate_reply := None;
     proxy_reply := (proxy_port, None); select_reply := TickFired;
     dial_reply := None; verify_reply := None |}.

(** The engine reports a mismatch. *)
Definition mismatch : error := errorString "the pact did not verify".

Definition pact_fails : Replies :=
  {| free_port_reply := (free_port, None); validate_reply := None;
     proxy_reply := (proxy_port, None); select_reply := TickFired;
     dial_reply := None; verify_reply := Some mismatch |}.

(** The request does not validate. *)
Definition invalid : Replies :=
  {| free_port_reply := (free_port, None); validate_reply := Some failed;
     proxy_reply := (proxy_port, None); select_reply := TickFired;
     dial_reply := None; verify_reply := None |}.

(** The proxy reports an error on start, and the port still answers. *)
Definition proxy_start_error : Replies :=
  {| free_port_reply := (free_port, None); validate_reply := None;
     proxy_reply := (proxy_port, Some failed); select_reply := TickFired;
     dial_reply := None; verify_reply := None |}.

(** The proxy port refuses every connection. *)
Definition port_closed : Replies :=
  {| free_port_reply := (free_port, None); validate_reply := None;
     proxy_reply := (proxy_port, None); select_reply := TickFired;
     dial_reply := Some failed; verify_reply := None |}.

Definition t : outputWriter := OutputWriterRef 0.

(** A request with one state handler and no provider-states URL. *)
Definition with_state_handler : VerifyRequest value :=
  {| ProviderBaseURL := provider_url; BeforeEach := Some (HookFunc 0);
     AfterEach := None; StateHandlers := registry; MessageHandlers := ∅;
     RequestFilter := None; CustomTLSConfig := Some (TLSConfigRef 0);
     Transports := []; ProviderStatesSetupURL := EmptyString |}.

Definition provider_URL : URL :=
  {| url_Scheme := "http"; url_Hostname := "localhost"; url_Port := "8080";
     url_Path := EmptyString |}.

Definition orchestrate (v : Verifier) (a : Replies) (rq : VerifyRequest value)
    : list (OrchEvent value) * Outcome (option error) :=
  exec (orch_obs value) (orch_env a) (verifyProviderRaw v rq t).

Definition run_test (v : Verifier) (a : Replies) (rq : VerifyRequest value)
    : list (TestEvent value) * Outcome (option error) :=
  exec (test_obs value) (test_env a) (VerifyProvider v t rq).

(** The setup request through before-each and the state-handler bridge,
    with a failing before hook. *)
Definition failing_before : Handler value :=
  beforeEachMiddleware (HookFunc 1) (stateHandlerMiddleware registry downstream).

(** The three middlewares in the orchestrator's order. *)
Definition pipeline : Handler value :=
  beforeEachMiddleware (HookFunc 0)
    (afterEachMiddleware (HookFunc 1) (stateHandlerMiddleware registry downstream)).

End Cases.

(** ** Facts about runs *)

Section Runs.

Context {E : Type -> Type} {Ev : Type} (obs : forall X, E X -> X -> Ev).

Lemma exec_runs {A} (env : forall X, E X -> X) (p : Prog.t E A) :
  runs obs p (exec obs env p).1 (exec obs env p).2.
Proof.
  induction p as [a|s|X e k IH]; simpl; [done..|].
  specialize (IH (env X e)).
  destruct (exec obs env (k (env X e))) as [tr o]; simpl in *.
  eauto.
Qed.

Lemma runs_bind {A B} (p : Prog.t E A) (f : A -> Prog.t E B) tr o :
  runs obs (p ≫= f) tr o <->
  (exists tr1 a tr2, runs obs p tr1 (Returned a) /\ runs obs (f a) tr2 o /\ tr = tr1 ++ tr2)
  \/ (exists s, runs obs p tr (Aborted s) /\ o = Aborted s).
Proof.
  revert tr. induction p as [a|s|X e k IH]; intros tr; simpl.
  - split.
    + intros H. left. exists [], a, tr. auto.
    + intros [(tr1 & a' & tr2 & [-> Ha] & H & ->)|(s & [_ Hs] & _)]; [|done].
      by injection Ha as ->.
  - split.
    + intros [-> ->]. right. eauto.
    + intros [(tr1 & a' & tr2 & [_ Ha] & _)|(s' & [-> Hs] & ->)]; [done|].
      by injection Hs as ->.
  - split.
    + intros (x & tr' & -> & H). apply IH in H as [(tr1 & a & tr2 & H1 & H2 & ->)|(s & H1 & ->)].
      * left. exists (obs X e x :: tr1), a, tr2. eauto 10.
      * right. exists s. eauto 10.
    + intros [(tr1 & a & tr2 & (x & tr' & -> & H1) & H2 & ->)|(s & (x & tr' & -> & H1) & ->)].
      * exists x, (tr' ++ tr2). split; [done|]. apply IH. left. eauto 10.
      * exists x, tr'. split; [done|]. apply IH. right. eauto.
Qed.

End Runs.

(** ** The middlewares *)

(** Peel a run of a program into its events, by cases on what the
    environment answered. *)
Ltac run_inv :=
  repeat (simpl in *;
    match goal with
    | H : ∃ _, _ |- _ => destruct H as [? H]
    | H : _ ∧ _ |- _ => destruct H as [? H]
    | x : unit |- _ => destruct x
    | x : (_ * _)%type |- _ => destruct x
    | H : runs _ ?p _ _ |- _ =>
        match p with
        | context [match ?x with _ => _ end] => destruct x eqn:?
        end
    end); simplify_eq/=.

(** The run of a closed program in the environment [env], by evaluation. *)
Ltac run_here env :=
  match goal with
  | |- runs ?obs ?p ?tr ?o =>
      let Htr := fresh in
      let Ho := fresh in
      assert (Htr : (exec obs env p).1 = tr) by (vm_compute; reflexivity);
      assert (Ho : (exec obs env p).2 = o) by (vm_compute; reflexivity);
      rewrite <- Htr, <- Ho; apply (exec_runs obs env p)
  end.

Section Middleware_properties.

Context {Value : Type} `{!GoLib Value}.

Implicit Types (r : Request) (tr : list (HttpEvent Value)) (o : Outcome unit).
Implicit Types (w : Response) (stateHandlers : gmap string StateHandler).

(** C4.  In every execution of the before-each middleware: the hook is
    called exactly when the request path is [/__setup]; when it returns an
    error, [WriteHeader(500)] follows and the downstream handler is still
    called after it; and on every path the downstream handler is called,
    once, as the last step, on the request the middleware received. *)
Theorem beforeEach_hook_on_setup_then_downstream (BeforeEach : Hook) r tr o :
  runs (http_obs Value) (beforeEachMiddleware BeforeEach downstream r) tr o ->
  ((exists err, EvHook BeforeEach err ∈ tr) <-> URL_Path r = providerStatesSetupPath) /\
  (forall e, EvHook BeforeEach (Some e) ∈ tr ->
     exists pre, tr = pre ++ [EvHook BeforeEach (Some e);
                               EvLog "[ERROR] error executing before hook:";
                               EvWriteHeader 500; EvDownstream r]) /\
  (exists pre, tr = pre ++ [EvDownstream r] /\ forall r', EvDownstream r' ∉ pre) /\
  o = Returned tt.
Proof.
  unfold beforeEachMiddleware, downstream, log. intros Hrun.
  case_decide as Hpath; run_inv.
  - repeat split; [done|exists (Some e); set_solver|..].
    + intros e' ?. assert (e' = e) as -> by set_solver.
      by eexists [_].
    + eexists [_; _; _; _]. split; [done|]. set_solver.
  - repeat split; [done|exists None; set_solver|set_solver|].
    eexists [_; _]. split; [done|]. set_solver.
  - repeat split; [set_solver|done|set_solver|].
    exists []. split; [done|]. set_solver.
Qed.

(** C5.  In every execution of the after-each middleware the downstream
    handler is called first, and only once; the hook is called, after it,
    exactly when the request path is not [/__setup]; and when the hook
    returns an error, [WriteHeader(500)] is the call that follows. *)
Theorem afterEach_downstream_first_then_hook (AfterEach : Hook) r tr o :
  runs (http_obs Value) (afterEachMiddleware AfterEach downstream r) tr o ->
  (exists post, tr = EvDownstream r :: post /\
     (forall r', EvDownstream r' ∉ post) /\
     ((exists err, EvHook AfterEach err ∈ post) <->
        URL_Path r ≠ providerStatesSetupPath) /\
     (forall e, EvHook AfterEach (Some e) ∈ post ->
        exists mid, post = mid ++ [EvHook AfterEach (Some e);
                                    EvLog "[ERROR] error executing after hook:";
                                    EvWriteHeader 500])) /\
  o = Returned tt.
Proof.
  unfold afterEachMiddleware, downstream, log. intros Hrun.
  case_decide as Hpath; run_inv.
  - split; [|done]. eexists. split; [done|].
    repeat split; [set_solver|done|exists (Some e); set_solver|].
    intros e' ?. assert (e' = e) as -> by set_solver. by eexists [_].
  - split; [|done]. eexists. split; [done|].
    repeat split; [set_solver|done|exists None; set_solver|set_solver].
  - split; [|done]. exists []. split; [done|].
    repeat split; [set_solver|set_solver| |set_solver].
    intros ?. by destruct Hpath.
Qed.

(** The effect on the writer of a run that only logs and calls
    [WriteHeader(code)] once. *)
Lemma response_logs_then_status w tr code :
  (forall ev, ev ∈ tr -> (exists line, ev = EvLog line) \/ ev = EvWriteHeader code) ->
  EvWriteHeader code ∈ tr ->
  response w tr = writeHeader code w.
Proof.
  unfold response. revert w. induction tr as [|ev tr IH]; intros w Hall Hin.
  - set_solver.
  - destruct (Hall ev ltac:(left)) as [[line ->]| ->]; simpl.
    + apply IH; set_solver.
    + clear Hin. assert (Hidem : forall w', wroteHeader w' = true ->
                      foldl respond w' tr = w').
      { clear IH. induction tr as [|ev' tr IH']; intros w' Hw'; [done|].
        destruct (Hall ev' ltac:(set_solver)) as [[line ->]| ->]; simpl.
        - apply IH'; [set_solver|done].
        - unfold writeHeader at 1. rewrite Hw'. apply IH'; [set_solver|done]. }
      apply Hidem. unfold writeHeader. by destruct (wroteHeader w) eqn:?.
Qed.

(** C10.  On the path [/__setup] the state-handler middleware is the same
    program whatever the method, the other request fields and the next
    handler are, and no execution of it calls the downstream handler.  On
    any other path it does nothing but log and call the downstream handler
    on the request it received. *)
Theorem stateHandler_serves_setup_path_itself stateHandlers r :
  (URL_Path r = providerStatesSetupPath ->
     (forall (next next' : Handler Value) r',
        URL_Path r' = providerStatesSetupPath -> Body r' = Body r ->
        stateHandlerMiddleware stateHandlers next' r'
        = stateHandlerMiddleware stateHandlers next r) /\
     (forall tr o,
        runs (http_obs Value) (stateHandlerMiddleware stateHandlers downstream r) tr o ->
        (forall r', EvDownstream r' ∉ tr) /\ o = Returned tt)) /\
  (URL_Path r ≠ providerStatesSetupPath ->
     forall tr o,
       runs (http_obs Value) (stateHandlerMiddleware stateHandlers downstream r) tr o ->
       tr = [EvLog "[TRACE] skipping state handler for request"; EvDownstream r] /\
       o = Returned tt).
Proof.
  unfold stateHandlerMiddleware, downstream, log. split; intros Hpath.
  - split.
    + intros next next' r' Hpath' Hbody.
      rewrite !decide_True by done. by rewrite Hbody.
    + intros tr o Hrun. rewrite decide_True in Hrun by done.
      run_inv; (split; [set_solver|done]).
  - intros tr o Hrun. rewrite decide_False in Hrun by done. by run_inv.
Qed.

(** C3.  When either decoding of the body of a [/__setup] request fails,
    every execution only logs and calls [WriteHeader(500)]: no state
    handler is called, the downstream handler is not called, and a writer
    that had not sent its header answers 500 with nothing written. *)
Theorem stateHandler_undecodable_body_500 stateHandlers r tr o :
  URL_Path r = providerStatesSetupPath ->
  json_Unmarshal_stateHandlerAction (Body r) = None
  \/ json_Unmarshal_ProviderStateResponse (Body r) = None ->
  runs (http_obs Value) (stateHandlerMiddleware stateHandlers downstream r) tr o ->
  (forall sf setup st res err, EvStateHandler sf setup st res err ∉ tr) /\
  (forall r', EvDownstream r' ∉ tr) /\
  (forall w, response w tr = writeHeader 500 w) /\
  (forall w, wroteHeader w = false ->
     status (response w tr) = 500 /\ written (response w tr) = written w) /\
  o = Returned tt.
Proof.
  unfold stateHandlerMiddleware, downstream, log. intros Hpath Hbad Hrun.
  rewrite decide_True in Hrun by done.
  assert (Hshape : (forall ev, ev ∈ tr ->
                      (exists line, ev = EvLog line) \/ ev = EvWriteHeader 500)
                   /\ EvWriteHeader 500 ∈ tr /\ o = Returned tt).
  { destruct (json_Unmarshal_stateHandlerAction (Body r)) as [st|] eqn:Hst;
      [destruct Hbad as [?|Hp]; [done|rewrite Hp in Hrun]|];
      run_inv; (split; [|split; [|done]]); set_solver. }
  destruct Hshape as (Hall & Hin & ->).
  assert (Hresp : forall w, response w tr = writeHeader 500 w)
    by (intros w; by apply response_logs_then_status).
  split_and!; try done.
  - intros sf setup st res err Hev. apply Hall in Hev. naive_solver.
  - intros r' Hev. apply Hall in Hev. naive_solver.
  - intros w Hw. rewrite Hresp. unfold writeHeader. by rewrite Hw.
Qed.

(** C2.  When the body of a [/__setup] request decodes and names a state
    with no registered handler, whatever the action, every execution only
    logs (the warning among the lines) and calls [WriteHeader(200)]: no
    handler and no downstream call, the middleware returns normally, and a
    writer that had not sent its header answers 200 with nothing written. *)
Theorem stateHandler_unknown_state_200 stateHandlers r st params tr o :
  URL_Path r = providerStatesSetupPath ->
  json_Unmarshal_stateHandlerAction (Body r) = Some st ->
  json_Unmarshal_ProviderStateResponse (Body r) = Some params ->
  stateHandlers !! State st = None ->
  runs (http_obs Value) (stateHandlerMiddleware stateHandlers downstream r) tr o ->
  (forall sf setup ps res err, EvStateHandler sf setup ps res err ∉ tr) /\
  (forall r', EvDownstream r' ∉ tr) /\
  EvLog "[WARN] no state handler found for state: %v" ∈ tr /\
  (forall w, response w tr = writeHeader 200 w) /\
  (forall w, wroteHeader w = false ->
     status (response w tr) = 200 /\ written (response w tr) = written w) /\
  o = Returned tt.
Proof.
  unfold stateHandlerMiddleware, downstream, log.
  intros Hpath Hst Hparams Hnone Hrun.
  rewrite decide_True in Hrun by done.
  rewrite Hst, Hparams in Hrun. simpl in Hrun. rewrite Hnone in Hrun.
  run_inv.
  split_and!; try set_solver.
  intros w Hw; unfold response, writeHeader; simpl; by rewrite Hw.
Qed.

(** C6.  When the body of a [/__setup] request decodes and names a state
    with a registered handler, every execution calls that handler once,
    with [setup] true exactly for the action "setup", and never the
    downstream handler.  On a writer that had not sent its header:
    a nil error and a non-nil result that serialises give status 200, the
    header content-type: application/json and the serialised result as the
    written body; a nil error and a nil result give status 200 and nothing
    written; an error, or a result that does not serialise, gives status
    500, nothing written, and [WriteHeader(500)] is the last call. *)
Theorem stateHandler_registered_state_response stateHandlers r st params sf tr o :
  URL_Path r = providerStatesSetupPath ->
  json_Unmarshal_stateHandlerAction (Body r) = Some st ->
  json_Unmarshal_ProviderStateResponse (Body r) = Some params ->
  stateHandlers !! State st = Some sf ->
  runs (http_obs Value) (stateHandlerMiddleware stateHandlers downstream r) tr o ->
  exists res err pre post,
    tr = pre ++ EvStateHandler sf (bool_decide (Action st = "setup"))
                  {| Name := State st;
                     Parameters := go_delete "state" (go_delete "action" params) |}
                  res err :: post /\
    (forall ev, ev ∈ pre -> exists line, ev = EvLog line) /\
    (forall sf' setup ps res' err', EvStateHandler sf' setup ps res' err' ∉ post) /\
    (forall r', EvDownstream r' ∉ tr) /\
    o = Returned tt /\
    forall w, wroteHeader w = false ->
      (forall m resBody,
         err = None -> res = Some m -> json_Marshal m = Some resBody ->
         status (response w tr) = 200 /\
         sentHeader (response w tr)
           = handlerHeader w ++ [("content-type", "application/json")] /\
         written (response w tr) = written w +:+ resBody) /\
      (err = None -> res = None ->
         status (response w tr) = 200 /\
         written (response w tr) = written w /\
         forall data, EvWrite data ∉ tr) /\
      (err ≠ None \/ (exists m, res = Some m /\ json_Marshal m = None) ->
         status (response w tr) = 500 /\
         written (response w tr) = written w /\
         (forall data, EvWrite data ∉ tr) /\
         exists pre', tr = pre' ++ [EvWriteHeader 500]).
Proof.
  unfold stateHandlerMiddleware, downstream, log.
  intros Hpath Hst Hparams Hsome Hrun.
  rewrite decide_True in Hrun by done.
  rewrite Hst, Hparams in Hrun. simpl in Hrun. rewrite Hsome in Hrun.
  run_inv.
  all: eexists _, _, [_; _; _; _], _; split; [reflexivity|].
  all: split_and!; try set_solver.
  all: intros w Hw; unfold response, writeHeader, write, writeHeader; simpl;
    rewrite ?Hw; simpl; rewrite ?Hw; simpl.
  all: split_and!; try done; try naive_solver; try set_solver.
  all: intros _; split_and!; [done|done|set_solver|].
  - by eexists [_; _; _; _; _; _].
  - by eexists [_; _; _; _; _; _; _; _].
Qed.

(** C1.  When the body of a [/__setup] request decodes to the top-level
    mapping [m], the parameters of every state-handler call are [m] without
    the keys "action" and "state": every other key keeps its value, these
    two are absent, and the key sets differ by exactly these two.  And the
    call does happen whenever the instruction decodes and names a
    registered state. *)
Theorem stateHandler_params_are_body_without_control_keys
    stateHandlers r (m : gmap string Value) tr o :
  URL_Path r = providerStatesSetupPath ->
  json_Unmarshal_ProviderStateResponse (Body r) = Some (Some m) ->
  runs (http_obs Value) (stateHandlerMiddleware stateHandlers downstream r) tr o ->
  (forall sf setup ps res err,
     EvStateHandler sf setup ps res err ∈ tr ->
     exists p : gmap string Value,
       Parameters ps = Some p /\
       (forall k, p !! k = if decide (k = "action" \/ k = "state") then None else m !! k) /\
       p !! "action" = None /\ p !! "state" = None /\
       dom p = dom m ∖ {[ "action"; "state" ]}) /\
  (forall st sf,
     json_Unmarshal_stateHandlerAction (Body r) = Some st ->
     stateHandlers !! State st = Some sf ->
     exists setup ps res err, EvStateHandler sf setup ps res err ∈ tr).
Proof.
  unfold stateHandlerMiddleware, downstream, log.
  intros Hpath Hparams Hrun.
  rewrite decide_True in Hrun by done. rewrite Hparams in Hrun.
  assert (Hdel : forall k : string,
            delete "state" (delete "action" m) !! k
            = if decide (k = "action" \/ k = "state") then None else m !! k).
  { intros k. rewrite !lookup_delete. repeat case_decide; naive_solver. }
  assert (Hdom : dom (delete "state" (delete "action" m))
                 = dom m ∖ {[ "action"; "state" ]}).
  { rewrite !dom_delete_L. set_solver. }
  split.
  - intros sf setup ps res err Hev.
    exists (delete "state" (delete "action" m)).
    split; [|split_and!; [done|by rewrite Hdel..|done]].
    run_inv; set_solver.
  - intros st sf Hst Hsf. rewrite Hst in Hrun. simpl in Hrun.
    rewrite Hsf in Hrun. run_inv; do 4 eexists; rewrite !elem_of_cons; eauto 10.
Qed.

End Middleware_properties.

(** ** The orchestrator *)

Ltac run_head :=
  repeat (simpl in *;
    match goal with
    | H : ∃ _, _ |- _ => destruct H as [? H]
    | H : _ ∧ _ |- _ => destruct H as [? H]
    | x : unit |- _ => destruct x
    | x : (_ * _)%type |- _ => destruct x
    | H : runs _ (match ?x with _ => _ end) _ _ |- _ => destruct x eqn:?
    | H : runs _ (prog_bind _ _ _ (match ?x with _ => _ end)) _ _ |- _ => destruct x eqn:?
    | H : runs _ (Prog.bind (match ?x with _ => _ end) _) _ _ |- _ => destruct x eqn:?
    | H : runs _ (match ?x with _ => _ end ≫= _) _ _ |- _ => destruct x eqn:?
    end); simplify_eq/=.

(** Decide which event of an explicit trace a membership hypothesis is
    about; [Hwait] says that the events of the port wait are of its kinds. *)
Ltac which_event Hwait :=
  repeat match goal with
         | H : _ ∈ _ ++ _ |- _ => rewrite elem_of_app in H
         | H : _ ∈ _ :: _ |- _ => rewrite elem_of_cons in H
         | H : _ ∈ [] |- _ => by apply elem_of_nil in H
         | H : _ ∨ _ |- _ => destruct H as [H|H]
         | H : _ ∈ _ |- _ => apply Hwait in H; simpl in H
         | H : False |- _ => destruct H
         | H : _ = _ |- _ => discriminate H
         end;
  simplify_eq.

Section Orchestrator_properties.

Context {Value : Type} `{!GoLib Value}.

Implicit Types (v : Verifier) (rq request : VerifyRequest Value).
Implicit Types (tr : list (OrchEvent Value)) (writer : outputWriter).

Lemma verifyProviderRaw_stages v rq writer :
  verifyProviderRaw v rq writer =
  let v := (validateConfig v).1 in
  request ← dummy_provider v rq;
  err ← call (Validate request (handle v));
  match err with
  | Some e => mret (Some e)
  | None =>
      match url_Parse (ProviderBaseURL request) with
      | None => log_Panic "unable to parse the provider URL"
      | Some u =>
          started ← call (HTTPReverseProxy (proxy_options u request));
          verify_when_ready v
            (states_setup_url started.1 (message_transport started.1 request))
            writer started.1
      end
  end.
Proof. reflexivity. Qed.

Lemma dummy_provider_runs v rq tr (o : Outcome (VerifyRequest Value)) :
  runs (orch_obs Value) (dummy_provider v rq) tr o ->
  (ProviderBaseURL rq ≠ "" /\ tr = [] /\ o = Returned rq)
  \/ (ProviderBaseURL rq = "" /\ exists port,
        (tr = [EvOLog "[DEBUG] setting up a dummy server for verification, as none was provided";
               EvGetFreePort port None;
               EvGo (startDefaultHTTPServer v port)]
         /\ o = Returned (set_ProviderBaseURL ("http://localhost:" +:+ pretty port) rq))
        \/ (exists e,
              tr = [EvOLog "[DEBUG] setting up a dummy server for verification, as none was provided";
                    EvGetFreePort port (Some e);
                    EvOLog "unable to allocate a port for verification:"]
              /\ o = Aborted Panic)).
Proof.
  unfold dummy_provider, olog, log_Panic, olog. intros Hrun.
  case_decide as Hbase; [right|left]; run_head; eauto 10.
Qed.

Lemma WaitForPort_loop_runs polls port network address d msg tr o :
  runs (orch_obs Value) (WaitForPort_loop polls port network address d msg) tr o ->
  Forall port_wait_event tr /\
  ((o = Returned None /\ EvDial network (address +:+ ":" +:+ pretty port) None ∈ tr)
   \/ (o = Returned (Some (Errorf "expected server to start < %s. %s"
                             [ArgDuration d; ArgString msg]))
       /\ forall n a, EvDial n a None ∉ tr)).
Proof.
  revert tr. induction polls as [|polls IH]; intros tr Hrun.
  - unfold olog in *. run_head. split; [repeat constructor|]. right. set_solver.
  - simpl in Hrun. unfold olog in *. destruct Hrun as ([] & tr' & -> & Hrun).
    + run_head. split; [repeat constructor|]. right. set_solver.
    + simpl in Hrun. destruct Hrun as ([e|] & tr'' & -> & Hrun).
      * apply IH in Hrun as [Hall Hcases]. split; [by repeat constructor|].
        destruct Hcases as [[-> Hin]|[-> Hnone]]; [left|right]; set_solver.
      * run_head. split; [repeat constructor|]. left. set_solver.
Qed.

Lemma WaitForPort_runs port network address d msg tr o :
  runs (orch_obs Value) (WaitForPort port network address d msg) tr o ->
  Forall port_wait_event tr /\
  ((o = Returned None /\ EvDial network (address +:+ ":" +:+ pretty port) None ∈ tr)
   \/ (o = Returned (Some (Errorf "expected server to start < %s. %s"
                             [ArgDuration d; ArgString msg]))
       /\ forall n a, EvDial n a None ∉ tr)).
Proof.
  unfold WaitForPort. intros Hrun.
  apply runs_bind in Hrun as [(tr1 & [] & tr2 & H1 & Hrun & ->)|(s & H1 & _)];
    [|by destruct H1 as (? & ? & _ & _ & ?)].
  destruct H1 as (? & ? & -> & -> & ?).
  apply WaitForPort_loop_runs in Hrun as [Hall Hcases].
  split; [by repeat constructor|].
  destruct Hcases as [[-> Hin]|[-> Hnone]]; [left|right]; set_solver.
Qed.

Lemma verify_when_ready_runs v request writer port tr o :
  runs (orch_obs Value) (verify_when_ready v request writer port) tr o ->
  exists wait, Forall port_wait_event wait /\
    ((tr = wait ++ [EvOLog "Error:"] /\ o = Aborted (OsExit 1)
      /\ forall n a, EvDial n a None ∉ wait)
     \/ (exists e,
           tr = wait ++ [EvOLog "[DEBUG] pact provider verification";
                         EvVerify request (handle v) writer e]
           /\ o = Returned e
           /\ EvDial "tcp" ("localhost" +:+ ":" +:+ pretty port) None ∈ wait)).
Proof.
  unfold verify_when_ready. intros Hrun.
  apply runs_bind in Hrun as [(wait & portErr & tr2 & Hwait & Hrun & ->)|(s & Hwait & _)];
    apply WaitForPort_runs in Hwait as [Hall [[? Hin]|[? Hnone]]]; simplify_eq.
  - exists wait. split; [done|]. right.
    unfold olog in Hrun. run_head. eauto 10.
  - exists wait. split; [done|]. left.
    unfold log_Fatal, olog in Hrun. run_head. eauto.
Qed.

Lemma verifyProviderRaw_runs v rq writer tr o :
  runs (orch_obs Value) (verifyProviderRaw v rq writer) tr o ->
  let v' := (validateConfig v).1 in
  exists tr1 o1,
    runs (orch_obs Value) (dummy_provider v' rq) tr1 o1 /\
    match o1 with
    | Aborted s => tr = tr1 /\ o = Aborted s
    | Returned rq1 =>
        exists verr tr2,
          tr = tr1 ++ EvValidate rq1 (handle v') verr :: tr2 /\
          match verr with
          | Some e => tr2 = [] /\ o = Returned (Some e)
          | None =>
              match url_Parse (ProviderBaseURL rq1) with
              | None =>
                  tr2 = [EvOLog "unable to parse the provider URL"] /\ o = Aborted Panic
              | Some u =>
                  exists port perr tr3,
                    tr2 = EvHTTPReverseProxy (proxy_options u rq1) port perr :: tr3 /\
                    runs (orch_obs Value)
                      (verify_when_ready v'
                         (states_setup_url port (message_transport port rq1))
                         writer port) tr3 o
              end
          end
    end.
Proof.
  rewrite verifyProviderRaw_stages. cbv zeta. intros Hrun.
  apply runs_bind in Hrun as [(tr1 & rq1 & tr' & H1 & Hrun & ->)|(s & H1 & ->)].
  - exists tr1, (Returned rq1). split; [done|].
    destruct Hrun as (verr & tr2 & -> & Hrun). exists verr, tr2. split; [done|].
    destruct verr as [e|]; [by destruct Hrun|].
    destruct (url_Parse (ProviderBaseURL rq1)) as [u|].
    + destruct Hrun as ([port perr] & tr3 & -> & Hrun). by exists port, perr, tr3.
    + unfold log_Panic, olog in Hrun. by run_head.
  - by exists tr, (Aborted s).
Qed.

(** C8.  In every execution that reaches the verification engine, the
    proxy was started once, and the transport list of the request handed
    to the engine is the caller's list, followed, exactly when at least
    one message handler is registered, by the descriptor with path
    [/__messages], protocol [message] and the port the proxy returned
    converted to [uint16]: the proxy's port itself, for a port number in
    the range of port numbers. *)
Theorem message_transport_iff_message_handlers v rq writer tr o rq' h w' verr :
  runs (orch_obs Value) (verifyProviderRaw v rq writer) tr o ->
  EvVerify rq' h w' verr ∈ tr ->
  exists opts port perr,
    EvHTTPReverseProxy opts port perr ∈ tr /\
    (forall opts' port' perr',
       EvHTTPReverseProxy opts' port' perr' ∈ tr -> port' = port) /\
    Transports rq' =
      Transports rq ++
        (if decide (1 <= size (MessageHandlers rq))%nat
         then [{| Path := "/__messages"; Protocol := "message"; Port := uint16 port |}]
         else []) /\
    (0 <= port < 65536 ->
     Transports rq' =
       Transports rq ++
         (if decide (1 <= size (MessageHandlers rq))%nat
          then [{| Path := "/__messages"; Protocol := "message"; Port := port |}]
          else [])).
Proof.
  intros Hrun Hverify.
  apply verifyProviderRaw_runs in Hrun as (tr1 & o1 & Hdummy & Hrun). cbv zeta in *.
  apply dummy_provider_runs in Hdummy
    as [(Hbase & -> & ->)|(Hbase & p & [[-> ->]|(e & -> & ->)])];
    [| |destruct Hrun as [-> _]; which_event I].
  all: destruct Hrun as ([e|] & tr2 & -> & Hrun);
    [destruct Hrun as [-> _]; which_event I|].
  all: match type of Hrun with
       | match url_Parse ?s with _ => _ end =>
           destruct (url_Parse s) as [u|]; [|destruct Hrun as [-> _]; which_event I]
       end.
  all: destruct Hrun as (port & perr & tr3 & -> & Hrun).
  all: apply verify_when_ready_runs in Hrun
         as (wait & Hwait & [(-> & _ & _)|(e & -> & _ & _)]).
  all: rewrite Forall_forall in Hwait.
  all: which_event Hwait.
  all: eexists _, port, perr.
  all: split; [rewrite elem_of_app, !elem_of_cons; eauto 10|].
  all: split; [intros opts' port' perr' Hin; by which_event Hwait|].
  all: match goal with
       | |- ?appended /\ _ =>
           assert (Happended : appended);
             [|split; [exact Happended|];
               intros Hrange; rewrite Happended; unfold uint16;
               by rewrite Z.mod_small]
       end.
  all: unfold states_setup_url, message_transport.
  all: repeat case_decide; simpl; rewrite ?app_nil_r; try done; lia.
Qed.

(** C9.  With a provider base URL, no port is allocated and no goroutine
    is started: the first call validates the caller's request unchanged,
    any proxy is started on the host, port, scheme and path parsed from
    that URL, and the engine is handed a request with that URL.  Without
    one, a free port is asked for first.  If that fails the run panics
    after logging, and nothing else is called.  Otherwise the dummy server
    is started on that port of the verifier's host name (only that
    goroutine is started), the request validated next is the caller's
    with [http://localhost:<port>] as its base URL, and that URL is what
    the proxy targets and what the engine sees. *)
Theorem dummy_provider_exactly_without_base_url v rq writer tr o :
  runs (orch_obs Value) (verifyProviderRaw v rq writer) tr o ->
  let v' := (validateConfig v).1 in
  let targets (base : string) (rest : list (OrchEvent Value)) :=
    (forall g, EvGo g ∉ rest) /\
    (forall p e, EvGetFreePort p e ∉ rest) /\
    (forall opts p e,
       EvHTTPReverseProxy opts p e ∈ rest ->
       exists u, url_Parse base = Some u /\
         TargetAddress opts = url_Hostname u +:+ ":" +:+ url_Port u /\
         TargetScheme opts = url_Scheme u /\ TargetPath opts = url_Path u) /\
    (forall rq' h w e, EvVerify rq' h w e ∈ rest -> ProviderBaseURL rq' = base) in
  (ProviderBaseURL rq ≠ "" ->
     exists verr rest,
       tr = EvValidate rq (handle v') verr :: rest /\
       targets (ProviderBaseURL rq) rest) /\
  (ProviderBaseURL rq = "" ->
     exists port perr rest,
       tr = EvOLog "[DEBUG] setting up a dummy server for verification, as none was provided"
            :: EvGetFreePort port perr :: rest /\
       match perr with
       | Some _ =>
           rest = [EvOLog "unable to allocate a port for verification:"] /\
           o = Aborted Panic
       | None =>
           let base := "http://localhost:" +:+ pretty port in
           exists verr rest',
             rest = EvGo (ListenAndServe (Hostname v' +:+ ":" +:+ pretty port))
                    :: EvValidate (set_ProviderBaseURL base rq) (handle v') verr
                    :: rest' /\
             targets base rest'
       end).
Proof.
  intros Hrun v' targets.
  apply verifyProviderRaw_runs in Hrun as (tr1 & o1 & Hdummy & Hrun). cbv zeta in *.
  fold v' in Hdummy, Hrun.
  assert (Htargets : forall rq1 tr2,
            match url_Parse (ProviderBaseURL rq1) with
            | Some u =>
                exists port perr tr3,
                  tr2 = EvHTTPReverseProxy (proxy_options u rq1) port perr :: tr3 /\
                  runs (orch_obs Value)
                    (verify_when_ready v'
                       (states_setup_url port (message_transport port rq1))
                       writer port) tr3 o
            | None => tr2 = [EvOLog "unable to parse the provider URL"] /\ o = Aborted Panic
            end ->
            targets (ProviderBaseURL rq1) tr2).
  { intros rq1 tr2 Htr2. unfold targets.
    destruct (url_Parse (ProviderBaseURL rq1)) as [u|];
      [|destruct Htr2 as [-> _]; split_and!; intros; try intro; by which_event I].
    destruct Htr2 as (port & perr & tr3 & -> & Hready).
    apply verify_when_ready_runs in Hready
      as (wait & Hwait & [(-> & _ & _)|(e & -> & _ & _)]).
    all: rewrite Forall_forall in Hwait.
    all: split_and!; intros; try intro; which_event Hwait; try done; eauto.
    all: unfold states_setup_url, message_transport; by repeat case_decide. }
  apply dummy_provider_runs in Hdummy
    as [(Hbase & -> & ->)|(Hbase & p & [[-> ->]|(e & -> & ->)])].
  - split; [intros _|done].
    destruct Hrun as (verr & tr2 & -> & Hrun). exists verr, tr2. split; [done|].
    destruct verr as [e|]; [|by apply Htargets].
    destruct Hrun as [-> _]. unfold targets. split_and!; intros; try intro; by which_event I.
  - split; [done|intros _].
    destruct Hrun as (verr & tr2 & -> & Hrun). exists p, None. eexists. split; [done|].
    exists verr, tr2. split; [done|].
    destruct verr as [e|]; [|by apply (Htargets (set_ProviderBaseURL _ rq))].
    destruct Hrun as [-> _]. unfold targets. split_and!; intros; try intro; by which_event I.
  - split; [done|intros _]. destruct Hrun as [-> ->].
    exists p, (Some e). by eexists.
Qed.

(** C7 (what the code does).  In every execution that started waiting for
    the proxy port and in which no dial succeeded, the verification engine
    is not called and the run ends in [os.Exit(1)]: [log.Fatal] stops the
    process before [return portErr], so no error is returned to the
    caller. *)
Theorem port_timeout_exits_the_process v rq writer tr o :
  runs (orch_obs Value) (verifyProviderRaw v rq writer) tr o ->
  EvOLog "[DEBUG] waiting for port" ∈ tr ->
  (forall network addr, EvDial network addr None ∉ tr) ->
  (forall rq' h w e, EvVerify rq' h w e ∉ tr) /\
  o = Aborted (OsExit 1) /\
  (forall e, o ≠ Returned e).
Proof.
  intros Hrun Hstarted Hunreachable.
  apply verifyProviderRaw_runs in Hrun as (tr1 & o1 & Hdummy & Hrun). cbv zeta in *.
  apply dummy_provider_runs in Hdummy
    as [(Hbase & -> & ->)|(Hbase & p & [[-> ->]|(e & -> & ->)])];
    [| |destruct Hrun as [-> _]; which_event I].
  all: destruct Hrun as ([e|] & tr2 & -> & Hrun);
    [destruct Hrun as [-> _]; which_event I|].
  all: match type of Hrun with
       | match url_Parse ?s with _ => _ end =>
           destruct (url_Parse s) as [u|]; [|destruct Hrun as [-> _]; which_event I]
       end.
  all: destruct Hrun as (port & perr & tr3 & -> & Hrun).
  all: apply verify_when_ready_runs in Hrun
         as (wait & Hwait & [(-> & -> & _)|(e & -> & _ & Hdial)]).
  all: try (exfalso;
            apply (Hunreachable "tcp" ("localhost" +:+ ":" +:+ pretty port));
            apply elem_of_app; right; do 2 apply list_elem_of_further;
            apply elem_of_app; by left).
  all: rewrite Forall_forall in Hwait.
  all: split_and!; [|done..]; intros rq' h w e Hin; by which_event Hwait.
Qed.

End Orchestrator_properties.

(** ** The scenarios, executed *)

Import Scenario.

(** C4 at a failing before hook on the setup path. *)
Lemma beforeEach_hook_on_setup_then_downstream_witness :
  let tr := [EvLog "[DEBUG] executing before hook";
             EvHook (HookFunc 1) (Some failed);
             EvLog "[ERROR] error executing before hook:";
             EvWriteHeader 500;
             EvDownstream setup_request] in
  runs (http_obs value) (beforeEachMiddleware (HookFunc 1) downstream setup_request)
    tr (Returned tt) /\
  ((exists err, EvHook (HookFunc 1) err ∈ tr)
   <-> URL_Path setup_request = providerStatesSetupPath) /\
  (exists pre, tr = pre ++ [EvDownstream setup_request]
               /\ forall r', EvDownstream r' ∉ pre).
Proof.
  intros tr.
  assert (Hrun : runs (http_obs value)
                   (beforeEachMiddleware (HookFunc 1) downstream setup_request)
                   tr (Returned tt)) by run_here http_env.
  split; [exact Hrun|].
  destruct (beforeEach_hook_on_setup_then_downstream (HookFunc 1) setup_request tr _ Hrun)
    as (Hhook & _ & Hdown & _).
  exact (conj Hhook Hdown).
Defined.

(** C5 at a failing after hook on a provider path. *)
Lemma afterEach_downstream_first_then_hook_witness :
  let tr := [EvDownstream users_request;
             EvLog "[DEBUG] executing after hook";
             EvHook (HookFunc 1) (Some failed);
             EvLog "[ERROR] error executing after hook:";
             EvWriteHeader 500] in
  runs (http_obs value) (afterEachMiddleware (HookFunc 1) downstream users_request)
    tr (Returned tt) /\
  exists post, tr = EvDownstream users_request :: post /\
    (forall r', EvDownstream r' ∉ post) /\
    ((exists err, EvHook (HookFunc 1) err ∈ post) <->
       URL_Path users_request ≠ providerStatesSetupPath).
Proof.
  intros tr.
  assert (Hrun : runs (http_obs value)
                   (afterEachMiddleware (HookFunc 1) downstream users_request)
                   tr (Returned tt)) by run_here http_env.
  split; [exact Hrun|].
  destruct (afterEach_downstream_first_then_hook (HookFunc 1) users_request tr _ Hrun)
    as ((post & Htr & Hdown & Hhook & _) & _).
  exact (ex_intro _ post (conj Htr (conj Hdown Hhook))).
Defined.

(** C10 at a GET request on the setup path. *)
Lemma stateHandler_serves_setup_path_itself_witness :
  let tr := (serve (stateHandlerMiddleware registry downstream) get_setup_request).1 in
  URL_Path get_setup_request = providerStatesSetupPath /\
  runs (http_obs value) (stateHandlerMiddleware registry downstream get_setup_request)
    tr (Returned tt) /\
  forall r', EvDownstream r' ∉ tr.
Proof.
  intros tr.
  assert (Hpath : URL_Path get_setup_request = providerStatesSetupPath) by reflexivity.
  assert (Hrun : runs (http_obs value)
                   (stateHandlerMiddleware registry downstream get_setup_request)
                   tr (Returned tt)) by run_here http_env.
  split; [exact Hpath|]. split; [exact Hrun|].
  destruct (stateHandler_serves_setup_path_itself registry get_setup_request)
    as [Hsetup _].
  destruct (Hsetup Hpath) as [_ Hruns].
  exact (proj1 (Hruns tr _ Hrun)).
Defined.

(** C3 at the truncated document. *)
Lemma stateHandler_undecodable_body_500_witness :
  let tr := [EvLog "[INFO] executing state handler middleware";
             EvLog "[TRACE] state handler received raw input";
             EvLog "[TRACE] state handler parsed input (without params)";
             EvLog "[ERROR] unable to decode incoming state change payload";
             EvWriteHeader 500] in
  URL_Path malformed_request = providerStatesSetupPath /\
  json_Unmarshal_stateHandlerAction (Body malformed_request) = None /\
  runs (http_obs value) (stateHandlerMiddleware registry downstream malformed_request)
    tr (Returned tt) /\
  (forall sf setup st res err, EvStateHandler sf setup st res err ∉ tr) /\
  (forall r', EvDownstream r' ∉ tr) /\
  status (response newResponse tr) = 500.
Proof.
  intros tr.
  assert (Hpath : URL_Path malformed_request = providerStatesSetupPath) by reflexivity.
  assert (Hbad : json_Unmarshal_stateHandlerAction (Body malformed_request) = None)
    by (vm_compute; reflexivity).
  assert (Hrun : runs (http_obs value)
                   (stateHandlerMiddleware registry downstream malformed_request)
                   tr (Returned tt)) by run_here http_env.
  split; [exact Hpath|]. split; [exact Hbad|]. split; [exact Hrun|].
  destruct (stateHandler_undecodable_body_500 registry malformed_request tr _
              Hpath (or_introl Hbad) Hrun) as (Hnone & Hdown & _ & Hstatus & _).
  exact (conj Hnone (conj Hdown (proj1 (Hstatus newResponse eq_refl)))).
Defined.

(** C2 at a teardown instruction with an empty registry. *)
Lemma stateHandler_unknown_state_200_witness :
  let st := {| Action := "teardown"; State := "User foo exists"; Params := None |} in
  let tr := [EvLog "[INFO] executing state handler middleware";
             EvLog "[TRACE] state handler received raw input";
             EvLog "[TRACE] state handler parsed input (without params)";
             EvLog "[TRACE] state handler completed parsing input (with params)";
             EvLog "[WARN] no state handler found for state: %v";
             EvWriteHeader 200] in
  URL_Path teardown_request = providerStatesSetupPath /\
  json_Unmarshal_stateHandlerAction (Body teardown_request) = Some st /\
  json_Unmarshal_ProviderStateResponse (Body teardown_request)
    = Some (Some (top_level "teardown")) /\
  (∅ : gmap string StateHandler) !! State st = None /\
  runs (http_obs value) (stateHandlerMiddleware ∅ downstream teardown_request)
    tr (Returned tt) /\
  (forall sf setup ps res err, EvStateHandler sf setup ps res err ∉ tr) /\
  status (response newResponse tr) = 200 /\
  written (response newResponse tr) = EmptyString.
Proof.
  intros st tr.
  assert (Hpath : URL_Path teardown_request = providerStatesSetupPath) by reflexivity.
  assert (Hst : json_Unmarshal_stateHandlerAction (Body teardown_request) = Some st)
    by (vm_compute; reflexivity).
  assert (Hparams : json_Unmarshal_ProviderStateResponse (Body teardown_request)
                    = Some (Some (top_level "teardown")))
    by (vm_compute; reflexivity).
  assert (Hnone : (∅ : gmap string StateHandler) !! State st = None) by reflexivity.
  assert (Hrun : runs (http_obs value)
                   (stateHandlerMiddleware ∅ downstream teardown_request)
                   tr (Returned tt)) by run_here http_env.
  destruct (stateHandler_unknown_state_200 ∅ teardown_request st _ tr _
              Hpath Hst Hparams Hnone Hrun) as (Hcalls & _ & _ & _ & Hfresh & _).
  destruct (Hfresh newResponse eq_refl) as [Hstatus Hwritten].
  exact (conj Hpath (conj Hst (conj Hparams (conj Hnone (conj Hrun
           (conj Hcalls (conj Hstatus Hwritten))))))).
Defined.

(** C6 at the setup scenario of the specification: the handler returns
    [user_id]. *)
Lemma stateHandler_registered_state_response_witness :
  let st := {| Action := "setup"; State := "User foo exists"; Params := None |} in
  let tr := (serve (stateHandlerMiddleware registry downstream) setup_request).1 in
  URL_Path setup_request = providerStatesSetupPath /\
  json_Unmarshal_stateHandlerAction (Body setup_request) = Some st /\
  json_Unmarshal_ProviderStateResponse (Body setup_request)
    = Some (Some (top_level "setup")) /\
  registry !! State st = Some (StateHandlerFunc 0) /\
  runs (http_obs value) (stateHandlerMiddleware registry downstream setup_request)
    tr (Returned tt) /\
  exists res err pre post,
    tr = pre ++ EvStateHandler (StateHandlerFunc 0) (bool_decide (Action st = "setup"))
                  {| Name := State st;
                     Parameters :=
                       go_delete "state" (go_delete "action" (Some (top_level "setup"))) |}
                  res err :: post.
Proof.
  intros st tr.
  assert (Hpath : URL_Path setup_request = providerStatesSetupPath) by reflexivity.
  assert (Hst : json_Unmarshal_stateHandlerAction (Body setup_request) = Some st)
    by (vm_compute; reflexivity).
  assert (Hparams : json_Unmarshal_ProviderStateResponse (Body setup_request)
                    = Some (Some (top_level "setup")))
    by (vm_compute; reflexivity).
  assert (Hsome : registry !! State st = Some (StateHandlerFunc 0))
    by (vm_compute; reflexivity).
  assert (Hrun : runs (http_obs value)
                   (stateHandlerMiddleware registry downstream setup_request)
                   tr (Returned tt)) by run_here http_env.
  destruct (stateHandler_registered_state_response registry setup_request st _ _ tr _
              Hpath Hst Hparams Hsome Hrun) as (res & err & pre & post & Htr & _).
  exact (conj Hpath (conj Hst (conj Hparams (conj Hsome (conj Hrun
           (ex_intro _ res (ex_intro _ err (ex_intro _ pre (ex_intro _ post Htr))))))))).
Defined.

(** C1 at the same scenario: the handler receives only the key "id". *)
Lemma stateHandler_params_are_body_without_control_keys_witness :
  let tr := (serve (stateHandlerMiddleware registry downstream) setup_request).1 in
  URL_Path setup_request = providerStatesSetupPath /\
  json_Unmarshal_ProviderStateResponse (Body setup_request)
    = Some (Some (top_level "setup")) /\
  runs (http_obs value) (stateHandlerMiddleware registry downstream setup_request)
    tr (Returned tt) /\
  forall sf setup ps res err,
    EvStateHandler sf setup ps res err ∈ tr ->
    exists p : gmap string value,
      Parameters ps = Some p /\
      p !! "action" = None /\ p !! "state" = None /\
      dom p = dom (top_level "setup") ∖ {[ "action"; "state" ]}.
Proof.
  intros tr.
  assert (Hpath : URL_Path setup_request = providerStatesSetupPath) by reflexivity.
  assert (Hparams : json_Unmarshal_ProviderStateResponse (Body setup_request)
                    = Some (Some (top_level "setup")))
    by (vm_compute; reflexivity).
  assert (Hrun : runs (http_obs value)
                   (stateHandlerMiddleware registry downstream setup_request)
                   tr (Returned tt)) by run_here http_env.
  destruct (stateHandler_params_are_body_without_control_keys registry setup_request
              (top_level "setup") tr _ Hpath Hparams Hrun) as [Hdelivered _].
  refine (conj Hpath (conj Hparams (conj Hrun _))).
  intros sf setup ps res err Hev.
  destruct (Hdelivered sf setup ps res err Hev) as (p & Hp & _ & Ha & Hs & Hdom).
  exact (ex_intro _ p (conj Hp (conj Ha (conj Hs Hdom)))).
Defined.

(** C8 with one message handler and a reachable proxy: the engine sees
    the transport on the proxy's port. *)
Lemma message_transport_iff_message_handlers_witness :
  let rq := request provider_url {[ "a user was created" := MessageHandlerFunc 0 ]} in
  let run := orchestrate verifier reachable rq in
  let rq' := states_setup_url proxy_port (message_transport proxy_port rq) in
  runs (orch_obs value) (verifyProviderRaw verifier rq (OutputWriterRef 0)) run.1 run.2 /\
  EvVerify rq' (NativeVerifier "pact-go" "v2") (OutputWriterRef 0) None ∈ run.1 /\
  Transports rq' =
    [{| Path := "/__messages"; Protocol := "message"; Port := proxy_port |}] /\
  exists opts port perr,
    EvHTTPReverseProxy opts port perr ∈ run.1 /\
    Transports rq' =
      Transports rq ++
        (if decide (1 <= size (MessageHandlers rq))%nat
         then [{| Path := "/__messages"; Protocol := "message"; Port := uint16 port |}]
         else []).
Proof.
  intros rq run rq'.
  assert (Hrun : runs (orch_obs value)
                   (verifyProviderRaw verifier rq (OutputWriterRef 0)) run.1 run.2)
    by apply exec_runs.
  assert (Hverify : EvVerify rq' (NativeVerifier "pact-go" "v2") (OutputWriterRef 0) None
                    ∈ run.1)
    by (vm_compute; do 6 apply list_elem_of_further; apply list_elem_of_here).
  assert (Htransports : Transports rq' =
            [{| Path := "/__messages"; Protocol := "message"; Port := proxy_port |}])
    by (vm_compute; reflexivity).
  destruct (message_transport_iff_message_handlers verifier rq (OutputWriterRef 0)
              run.1 run.2 rq' _ _ _ Hrun Hverify)
    as (opts & port & perr & Hproxy & _ & Happended & _).
  exact (conj Hrun (conj Hverify (conj Htransports
           (ex_intro _ opts (ex_intro _ port (ex_intro _ perr (conj Hproxy Happended))))))).
Defined.

(** C9 without a provider base URL: the dummy server is started on the
    allocated port. *)
Lemma dummy_provider_exactly_without_base_url_witness :
  let rq := request EmptyString ∅ in
  let run := orchestrate verifier reachable rq in
  ProviderBaseURL rq = EmptyString /\
  runs (orch_obs value) (verifyProviderRaw verifier rq (OutputWriterRef 0)) run.1 run.2 /\
  exists port perr rest,
    run.1 = EvOLog "[DEBUG] setting up a dummy server for verification, as none was provided"
            :: EvGetFreePort port perr :: rest /\
    match perr with
    | Some _ =>
        rest = [EvOLog "unable to allocate a port for verification:"] /\
        run.2 = Aborted Panic
    | None =>
        exists verr rest',
          rest = EvGo (ListenAndServe (Hostname (validateConfig verifier).1
                                         +:+ ":" +:+ pretty port))
                 :: EvValidate
                      (set_ProviderBaseURL ("http://localhost:" +:+ pretty port) rq)
                      (handle (validateConfig verifier).1) verr
                 :: rest'
    end.
Proof.
  intros rq run.
  assert (Hbase : ProviderBaseURL rq = EmptyString) by reflexivity.
  assert (Hrun : runs (orch_obs value)
                   (verifyProviderRaw verifier rq (OutputWriterRef 0)) run.1 run.2)
    by apply exec_runs.
  destruct (dummy_provider_exactly_without_base_url verifier rq (OutputWriterRef 0)
              run.1 run.2 Hrun) as [_ Hdummy].
  destruct (Hdummy Hbase) as (port & perr & rest & Htr & Hrest).
  refine (conj Hbase (conj Hrun (ex_intro _ port (ex_intro _ perr (ex_intro _ rest
            (conj Htr _)))))).
  destruct perr as [e|]; [exact Hrest|].
  destruct Hrest as (verr & rest' & Hrest & _).
  exact (ex_intro _ verr (ex_intro _ rest' Hrest)).
Defined.

(** The scenario of the specification in which the proxy never becomes
    reachable, evaluated. *)
Example scenario_proxy_never_reachable :
  orchestrate hasty_verifier unreachable (request provider_url ∅)
  = ([EvValidate (request provider_url ∅) (NativeVerifier "pact-go" "v2") None;
      EvHTTPReverseProxy
        (proxy_options
           {| url_Scheme := "http"; url_Hostname := "localhost"; url_Port := "8080";
              url_Path := EmptyString |}
           (request provider_url ∅))
        proxy_port None;
      EvOLog "[DEBUG] waiting for port";
      EvSelect TickFired; EvDial "tcp" "localhost:50124" (Some failed);
      EvSelect TickFired; EvDial "tcp" "localhost:50124" (Some failed);
      EvSelect TickFired; EvDial "tcp" "localhost:50124" (Some failed);
      EvOLog "[ERROR] expected server to start < %s. %s";
      EvOLog "Error:"],
     Aborted (OsExit 1)).
Proof. vm_compute. reflexivity. Qed.

(** C7 at a proxy port that refuses every connection: the process exits. *)
Lemma port_timeout_exits_the_process_witness :
  let rq := request provider_url ∅ in
  let run := orchestrate hasty_verifier unreachable rq in
  runs (orch_obs value) (verifyProviderRaw hasty_verifier rq (OutputWriterRef 0))
    run.1 run.2 /\
  EvOLog "[DEBUG] waiting for port" ∈ run.1 /\
  (forall network addr, EvDial network addr None ∉ run.1) /\
  (forall rq' h w e, EvVerify rq' h w e ∉ run.1) /\
  run.2 = Aborted (OsExit 1) /\
  (forall e, run.2 ≠ Returned e).
Proof.
  intros rq run.
  assert (Hrun : runs (orch_obs value)
                   (verifyProviderRaw hasty_verifier rq (OutputWriterRef 0)) run.1 run.2)
    by apply exec_runs.
  assert (Hstarted : EvOLog "[DEBUG] waiting for port" ∈ run.1)
    by (unfold run, rq; rewrite scenario_proxy_never_reachable;
        do 2 apply list_elem_of_further; apply list_elem_of_here).
  assert (Hunreachable : forall network addr, EvDial network addr None ∉ run.1)
    by (intros network addr Hin; unfold run, rq in Hin;
        rewrite scenario_proxy_never_reachable in Hin; simpl in Hin;
        by which_event I).
  exact (conj Hrun (conj Hstarted (conj Hunreachable
           (port_timeout_exits_the_process hasty_verifier rq (OutputWriterRef 0)
              run.1 run.2 Hrun Hstarted Hunreachable)))).
Defined.

(** The scenarios of the specification, evaluated. *)

Example scenario_setup_returns_handler_values :
  finish (response newResponse
            (serve (stateHandlerMiddleware registry downstream) setup_request).1)
  = {| handlerHeader := [content_type]; wroteHeader := true; status := 200;
       sentHeader := [content_type]; written := user_id_json |}.
Proof. vm_compute. reflexivity. Qed.

Example scenario_no_handler_registered :
  finish (response newResponse
            (serve (stateHandlerMiddleware ∅ downstream) setup_request).1)
  = {| handlerHeader := []; wroteHeader := true; status := 200;
       sentHeader := []; written := EmptyString |}.
Proof. vm_compute. reflexivity. Qed.

Example scenario_malformed_body :
  finish (response newResponse
            (serve (stateHandlerMiddleware registry downstream) malformed_request).1)
  = {| handlerHeader := []; wroteHeader := true; status := 500;
       sentHeader := []; written := EmptyString |}.
Proof. vm_compute. reflexivity. Qed.


(** ** The middlewares around an arbitrary next handler *)

Section Any_next.

Context {Value : Type} `{!GoLib Value}.

Implicit Types (r : Request) (tr : list (HttpEvent Value)) (o : Outcome unit).
Implicit Types (w : Response) (next : Handler Value).
Implicit Types (stateHandlers : gmap string StateHandler).

Lemma beforeEach_runs_iff (BeforeEach : Hook) next r tr o :
  runs (http_obs Value) (beforeEachMiddleware BeforeEach next r) tr o <->
  exists pre rest,
    tr = pre ++ rest /\
    runs (http_obs Value) (next r) rest o /\
    ((URL_Path r ≠ providerStatesSetupPath /\ pre = [])
     \/ (URL_Path r = providerStatesSetupPath /\
         (pre = [EvLog "[DEBUG] executing before hook"; EvHook BeforeEach None]
          \/ exists e,
               pre = [EvLog "[DEBUG] executing before hook";
                      EvHook BeforeEach (Some e);
                      EvLog "[ERROR] error executing before hook:";
                      EvWriteHeader 500]))).
Proof.
  unfold beforeEachMiddleware, log. case_decide as Hpath; simpl; split.
  - intros ([] & tr1 & -> & [[e|] [tr2 [-> Hrun]]]); simpl in Hrun.
    + destruct Hrun as ([] & tr3 & -> & [] & tr4 & -> & Hrun).
      eexists [_; _; _; _], tr4. split_and!; [done..|]. right. eauto.
    + eexists [_; _], tr2. split_and!; [done..|]. right. eauto.
  - intros (pre & rest & -> & Hrun & [[? _]|[_ [->|[e ->]]]]); [done|..].
    + exists tt. eexists. split; [done|]. exists None. eexists. split; [done|]. done.
    + exists tt. eexists. split; [done|]. exists (Some e). eexists. split; [done|].
      simpl. exists tt. eexists. split; [done|]. exists tt. eexists. split; done.
  - intros Hrun. exists [], tr. split_and!; [done..|]. by left.
  - intros (pre & rest & -> & Hrun & [[_ ->]|[? _]]); done.
Qed.

Lemma afterEach_runs_iff (AfterEach : Hook) next r tr o :
  runs (http_obs Value) (afterEachMiddleware AfterEach next r) tr o <->
  (exists s, runs (http_obs Value) (next r) tr (Aborted s) /\ o = Aborted s)
  \/ (exists served post,
        tr = served ++ post /\
        runs (http_obs Value) (next r) served (Returned tt) /\
        o = Returned tt /\
        ((URL_Path r = providerStatesSetupPath /\ post = [])
         \/ (URL_Path r ≠ providerStatesSetupPath /\
             (post = [EvLog "[DEBUG] executing after hook"; EvHook AfterEach None]
              \/ exists e,
                   post = [EvLog "[DEBUG] executing after hook";
                           EvHook AfterEach (Some e);
                           EvLog "[ERROR] error executing after hook:";
                           EvWriteHeader 500])))).
Proof.
  unfold afterEachMiddleware, log. rewrite runs_bind. split.
  - intros [(served & [] & post & Hnext & Hpost & ->)|(s & Hnext & ->)]; [right|left; eauto].
    exists served, post. split; [done|]. split; [done|].
    case_decide as Hpath; simpl in Hpost.
    + destruct Hpost as ([] & tr1 & -> & [[e|] [tr2 [-> Hrun]]]); simpl in Hrun.
      * destruct Hrun as ([] & tr3 & -> & [] & tr4 & -> & -> & ->).
        split; [done|]. right. eauto 10.
      * destruct Hrun as [-> ->]. split; [done|]. right. eauto.
    + destruct Hpost as [-> ->]. split; [done|]. left. split; [|done].
      by destruct (decide (URL_Path r = providerStatesSetupPath)).
  - intros [(s & Hnext & ->)|(served & post & -> & Hnext & -> & Hpost)]; [right; eauto|left].
    exists served, tt, post. split; [done|]. split; [|done].
    case_decide as Hpath; destruct Hpost as [[Hp ->]|[Hp [->|[e ->]]]]; try done; simpl.
    + exists tt. eexists. split; [done|]. exists None. eexists. by split.
    + exists tt. eexists. split; [done|]. exists (Some e). eexists. split; [done|].
      simpl. exists tt. eexists. split; [done|]. exists tt. eexists. by split.
Qed.

Lemma stateHandler_other_path_runs_iff stateHandlers next r tr o :
  URL_Path r ≠ providerStatesSetupPath ->
  runs (http_obs Value) (stateHandlerMiddleware stateHandlers next r) tr o <->
  exists rest,
    tr = EvLog "[TRACE] skipping state handler for request" :: rest /\
    runs (http_obs Value) (next r) rest o.
Proof.
  intros Hpath. unfold stateHandlerMiddleware, log.
  rewrite decide_False by done. simpl. split.
  - intros ([] & rest & -> & Hrun). eauto.
  - intros (rest & -> & Hrun). exists tt. eauto.
Qed.

(** On the setup path the state-handler middleware calls no hook and
    forwards nothing, whatever the next handler is. *)
Lemma stateHandler_setup_path_calls stateHandlers next r tr o :
  URL_Path r = providerStatesSetupPath ->
  runs (http_obs Value) (stateHandlerMiddleware stateHandlers next r) tr o ->
  o = Returned tt /\ hooks_called tr = [] /\ requests_forwarded tr = [].
Proof.
  unfold stateHandlerMiddleware, log. intros Hpath Hrun.
  rewrite decide_True in Hrun by done. by run_inv.
Qed.

(** Once the header is sent, no later call changes the status or the
    headers sent. *)
Lemma response_after_header w tr :
  wroteHeader w = true ->
  wroteHeader (response w tr) = true /\
  status (response w tr) = status w /\
  sentHeader (response w tr) = sentHeader w.
Proof.
  unfold response. revert w. induction tr as [|ev tr IH]; intros w Hw; [done|].
  simpl. assert (Hstep : wroteHeader (respond w ev) = true
                         /\ status (respond w ev) = status w
                         /\ sentHeader (respond w ev) = sentHeader w).
  { destruct ev; simpl; unfold write, writeHeader; rewrite ?Hw; done. }
  destruct Hstep as (Hw' & <- & <-). by apply IH.
Qed.

Lemma response_app w tr1 tr2 :
  response w (tr1 ++ tr2) = response (response w tr1) tr2.
Proof. apply foldl_app. Qed.

(** X1.  Around any next handler, a run of the before-each middleware is
    its own calls followed by a run of the next handler on the same
    request, and it ends as the next handler ends (also when that one
    panics).  Its own calls are none off the setup path, and on it the
    hook, followed on error by the error line and [WriteHeader(500)]. *)
Theorem beforeEach_then_any_next (BeforeEach : Hook) next r tr o :
  runs (http_obs Value) (beforeEachMiddleware BeforeEach next r) tr o ->
  exists pre rest,
    tr = pre ++ rest /\
    runs (http_obs Value) (next r) rest o /\
    requests_forwarded pre = [] /\
    hooks_called pre
      = (if decide (URL_Path r = providerStatesSetupPath) then [BeforeEach] else []) /\
    (forall code, EvWriteHeader code ∈ pre ->
       code = 500 /\ exists e, EvHook BeforeEach (Some e) ∈ pre).
Proof.
  intros (pre & rest & -> & Hnext & Hpre)%beforeEach_runs_iff.
  exists pre, rest. split; [done|]. split; [done|].
  case_decide as Hpath;
    destruct Hpre as [[? ->]|[? [->|[e ->]]]]; try done;
    (split_and!; [done..|]); intros code Hin; [set_solver| |set_solver].
  split; [set_solver|]. exists e. set_solver.
Qed.

(** X2.  Around any next handler, the after-each middleware first runs
    the next handler to its end.  If that one panics, the hook is not
    called and the panic goes on.  Otherwise the hook is called exactly
    off the setup path, and only a hook error adds a [WriteHeader], of
    500. *)
Theorem afterEach_after_any_next (AfterEach : Hook) next r tr o :
  runs (http_obs Value) (afterEachMiddleware AfterEach next r) tr o ->
  (exists s, o = Aborted s /\ runs (http_obs Value) (next r) tr (Aborted s))
  \/ (exists served post,
        o = Returned tt /\
        tr = served ++ post /\
        runs (http_obs Value) (next r) served (Returned tt) /\
        requests_forwarded post = [] /\
        hooks_called post
          = (if decide (URL_Path r = providerStatesSetupPath) then [] else [AfterEach]) /\
        (forall code, EvWriteHeader code ∈ post ->
           code = 500 /\ exists e, EvHook AfterEach (Some e) ∈ post)).
Proof.
  intros [(s & Hnext & ->)|(served & post & -> & Hnext & -> & Hpost)]%afterEach_runs_iff;
    [left; eauto|right].
  exists served, post. split_and!; [done..| | |].
  - by destruct Hpost as [[? ->]|[? [->|[e ->]]]].
  - by case_decide; destruct Hpost as [[? ->]|[? [->|[e ->]]]].
  - intros code Hin. destruct Hpost as [[? ->]|[? [->|[e ->]]]]; [set_solver..|].
    split; [set_solver|]. exists e. set_solver.
Qed.

(** X3.  Off the setup path the state-handler middleware logs one line
    and hands the request to the next handler, whatever that is, and ends
    as it ends: the runs of the two correspond one to one. *)
Theorem stateHandler_forwards_other_paths stateHandlers next r tr o :
  URL_Path r ≠ providerStatesSetupPath ->
  (runs (http_obs Value) (stateHandlerMiddleware stateHandlers next r) tr o <->
   exists rest,
     tr = EvLog "[TRACE] skipping state handler for request" :: rest /\
     runs (http_obs Value) (next r) rest o).
Proof. apply stateHandler_other_path_runs_iff. Qed.

(** X4.  With the three middlewares composed in the orchestrator's order,
    before-each outermost, every request sees exactly one hook: the before
    hook on the setup path, where nothing is forwarded, and the after hook
    on any other path, where the request is forwarded once. *)
Theorem pipeline_one_hook_per_request
    (BeforeEach AfterEach : Hook) stateHandlers r tr o :
  runs (http_obs Value)
    (beforeEachMiddleware BeforeEach
       (afterEachMiddleware AfterEach
          (stateHandlerMiddleware stateHandlers downstream)) r) tr o ->
  o = Returned tt /\
  hooks_called tr
    = [if decide (URL_Path r = providerStatesSetupPath) then BeforeEach else AfterEach] /\
  requests_forwarded tr
    = (if decide (URL_Path r = providerStatesSetupPath) then [] else [r]).
Proof.
  intros (pre & rest & -> & Hafter & Hpre)%beforeEach_runs_iff.
  apply afterEach_runs_iff in Hafter
    as [(s & Hstate & ->)|(served & post & -> & Hstate & -> & Hpost)].
  - exfalso. destruct (decide (URL_Path r = providerStatesSetupPath)) as [Hpath|Hpath].
    + by destruct (stateHandler_setup_path_calls _ _ _ _ _ Hpath Hstate).
    + apply stateHandler_other_path_runs_iff in Hstate as (? & _ & ? & ? & _ & _ & ?);
        done.
  - unfold hooks_called, requests_forwarded. rewrite !omap_app.
    case_decide as Hpath.
    + destruct (stateHandler_setup_path_calls _ _ _ _ _ Hpath Hstate) as (_ & Hh & Hf).
      unfold hooks_called, requests_forwarded in Hh, Hf. rewrite Hh, Hf.
      destruct Hpre as [[? _]|[_ [->|[e ->]]]]; [done|..];
        destruct Hpost as [[_ ->]|[? _]]; done.
    + apply stateHandler_other_path_runs_iff in Hstate
        as (? & -> & [] & ? & -> & -> & _); [|done].
      destruct Hpre as [[_ ->]|[? _]]; [|done].
      destruct Hpost as [[? _]|[_ [->|[e ->]]]]; done.
Qed.

(** X5.  When the before hook fails on the setup path, the status sent
    on a writer that had not sent its header is 500 and the headers sent
    are those set before the hook ran, whatever the rest of the chain
    does: the rest still runs, but its status and its later headers are
    not sent. *)
Theorem beforeEach_error_fixes_status_500 (BeforeEach : Hook) next r e rest o w :
  runs (http_obs Value) (beforeEachMiddleware BeforeEach next r)
    (EvLog "[DEBUG] executing before hook" :: EvHook BeforeEach (Some e) :: rest) o ->
  URL_Path r = providerStatesSetupPath ->
  wroteHeader w = false ->
  let sent := response w (EvLog "[DEBUG] executing before hook"
                          :: EvHook BeforeEach (Some e) :: rest) in
  status sent = 500 /\ sentHeader sent = handlerHeader w /\
  exists served,
    rest = EvLog "[ERROR] error executing before hook:" :: EvWriteHeader 500 :: served /\
    runs (http_obs Value) (next r) served o.
Proof.
  intros Hrun Hpath Hw sent.
  apply beforeEach_runs_iff in Hrun
    as (pre & served & Htr & Hnext & [[? _]|[_ [->|[e' ->]]]]); [done|..];
    simplify_eq/=.
  assert (Hsent : wroteHeader (writeHeader 500 w) = true)
    by (unfold writeHeader; by rewrite Hw).
  destruct (response_after_header (writeHeader 500 w) served Hsent) as (_ & Hst & Hhd).
  unfold sent, response in *. simpl. rewrite Hst, Hhd.
  unfold writeHeader. rewrite Hw. simpl. eauto.
Qed.

(** X6.  A failing after hook changes the status sent only if the chain
    below had not sent its header: if it had, the status and headers sent
    stay what the chain sent; if it had not, the status is 500. *)
Theorem afterEach_cannot_change_sent_status (AfterEach : Hook) next r tr w :
  runs (http_obs Value) (afterEachMiddleware AfterEach next r) tr (Returned tt) ->
  exists served post,
    tr = served ++ post /\
    runs (http_obs Value) (next r) served (Returned tt) /\
    (wroteHeader (response w served) = true ->
       status (response w tr) = status (response w served) /\
       sentHeader (response w tr) = sentHeader (response w served)) /\
    (wroteHeader (response w served) = false ->
       forall e, EvHook AfterEach (Some e) ∈ post ->
       status (response w tr) = 500).
Proof.
  intros Hrun. apply afterEach_runs_iff in Hrun
    as [(s & _ & ?)|(served & post & -> & Hnext & _ & Hpost)]; [done|].
  exists served, post. split_and!; [done..| |].
  - intros Hsent. rewrite response_app.
    by destruct (response_after_header (response w served) post Hsent) as (_ & ? & ?).
  - intros Hfresh e Hin. rewrite response_app.
    destruct Hpost as [[_ ->]|[_ [->|[e' ->]]]]; [set_solver..|].
    unfold response at 1. simpl. unfold writeHeader. by rewrite Hfresh.
Qed.

End Any_next.

(** ** More on the orchestrator *)

Section Orchestrator_more.

Context {Value : Type} `{!GoLib Value}.

Implicit Types (v : Verifier) (rq request : VerifyRequest Value).
Implicit Types (tr : list (OrchEvent Value)) (writer : outputWriter).

Lemma WaitForPort_loop_dials polls port network address d msg tr o :
  runs (orch_obs Value) (WaitForPort_loop polls port network address d msg) tr o ->
  (forall n a e, EvDial n a e ∈ tr ->
     n = network /\ a = address +:+ ":" +:+ pretty port) /\
  ((o = Returned None /\
    exists pre, tr = pre ++ [EvDial network (address +:+ ":" +:+ pretty port) None]
                /\ forall n a, EvDial n a None ∉ pre)
   \/ (o = Returned (Some (Errorf "expected server to start < %s. %s"
                             [ArgDuration d; ArgString msg])) /\
       (forall n a, EvDial n a None ∉ tr) /\
       exists pre, tr = pre ++ [EvOLog "[ERROR] expected server to start < %s. %s"])).
Proof.
  revert tr. induction polls as [|polls IH]; intros tr Hrun.
  - unfold olog in *. run_head. split; [set_solver|]. right.
    split_and!; [done|set_solver|by exists []].
  - simpl in Hrun. unfold olog in *. destruct Hrun as ([] & tr' & -> & Hrun).
    + run_head. split; [set_solver|]. right.
      split_and!; [done|set_solver|by eexists [_]].
    + simpl in Hrun. destruct Hrun as ([e|] & tr'' & -> & Hrun).
      * apply IH in Hrun as [Hdials Hcases]. split; [set_solver|].
        destruct Hcases as [[-> (pre & -> & Hpre)]|[-> (Hnone & pre & ->)]]; [left|right].
        -- split; [done|]. eexists (_ :: _ :: pre). split; [done|]. set_solver.
        -- split_and!; [done|set_solver|]. by eexists (_ :: _ :: pre).
      * run_head. split; [set_solver|]. left. split; [done|].
        eexists [_]. split; [done|]. set_solver.
Qed.

Lemma WaitForPort_dials port network address d msg tr o :
  runs (orch_obs Value) (WaitForPort port network address d msg) tr o ->
  exists polled,
    tr = EvOLog "[DEBUG] waiting for port" :: polled /\
    (forall n a e, EvDial n a e ∈ polled ->
       n = network /\ a = address +:+ ":" +:+ pretty port) /\
    ((o = Returned None /\
      exists pre, polled = pre ++ [EvDial network (address +:+ ":" +:+ pretty port) None]
                  /\ forall n a, EvDial n a None ∉ pre)
     \/ (o = Returned (Some (Errorf "expected server to start < %s. %s"
                               [ArgDuration d; ArgString msg])) /\
         (forall n a, EvDial n a None ∉ polled) /\
         exists pre, polled = pre ++ [EvOLog "[ERROR] expected server to start < %s. %s"])).
Proof.
  unfold WaitForPort. intros Hrun.
  apply runs_bind in Hrun as [(tr1 & [] & tr2 & H1 & Hrun & ->)|(s & H1 & _)];
    [|by destruct H1 as (? & ? & _ & _ & ?)].
  destruct H1 as (? & ? & -> & -> & ?).
  apply WaitForPort_loop_dials in Hrun. by exists tr2.
Qed.

(** X8.  [WaitForPort] returns nil exactly when its last call is a
    dial that succeeded, every dial before it having failed; otherwise it
    returns the error made of the timeout and the caller's message, its
    last call is the error line, and no dial succeeded.  Every dial is on
    the given network to [address:port], and the first call announces the
    wait. *)
Theorem WaitForPort_nil_after_successful_dial port network address d msg tr o :
  runs (orch_obs Value) (WaitForPort port network address d msg) tr o ->
  exists polled,
    tr = EvOLog "[DEBUG] waiting for port" :: polled /\
    (forall n a e, EvDial n a e ∈ polled ->
       n = network /\ a = address +:+ ":" +:+ pretty port) /\
    ((o = Returned None /\
      exists pre, polled = pre ++ [EvDial network (address +:+ ":" +:+ pretty port) None]
                  /\ forall n a, EvDial n a None ∉ pre)
     \/ (o = Returned (Some (Errorf "expected server to start < %s. %s"
                               [ArgDuration d; ArgString msg])) /\
         (forall n a, EvDial n a None ∉ polled) /\
         exists pre, polled = pre ++ [EvOLog "[ERROR] expected server to start < %s. %s"])).
Proof. apply WaitForPort_dials. Qed.

(** What a run of [verifyProviderRaw] is, stage by stage. *)
Lemma verifyProviderRaw_cases v rq writer tr o :
  runs (orch_obs Value) (verifyProviderRaw v rq writer) tr o ->
  let v' := (validateConfig v).1 in
  (exists p e,
     ProviderBaseURL rq = "" /\
     tr = [EvOLog "[DEBUG] setting up a dummy server for verification, as none was provided";
           EvGetFreePort p (Some e);
           EvOLog "unable to allocate a port for verification:"] /\
     o = Aborted Panic)
  \/ exists pre rq1,
       ((ProviderBaseURL rq ≠ "" /\ pre = [] /\ rq1 = rq)
        \/ (ProviderBaseURL rq = "" /\ exists p,
              pre = [EvOLog "[DEBUG] setting up a dummy server for verification, as none was provided";
                     EvGetFreePort p None;
                     EvGo (startDefaultHTTPServer v' p)] /\
              rq1 = set_ProviderBaseURL ("http://localhost:" +:+ pretty p) rq)) /\
       ((exists e, tr = pre ++ [EvValidate rq1 (handle v') (Some e)]
                   /\ o = Returned (Some e))
        \/ (url_Parse (ProviderBaseURL rq1) = None /\
            tr = pre ++ [EvValidate rq1 (handle v') None;
                         EvOLog "unable to parse the provider URL"] /\
            o = Aborted Panic)
        \/ (exists u port perr polled,
              url_Parse (ProviderBaseURL rq1) = Some u /\
              (forall n a e, EvDial n a e ∈ polled ->
                 n = "tcp" /\ a = "localhost" +:+ ":" +:+ pretty port) /\
              Forall port_wait_event polled /\
              ((tr = pre ++ EvValidate rq1 (handle v') None
                         :: EvHTTPReverseProxy (proxy_options u rq1) port perr
                         :: EvOLog "[DEBUG] waiting for port"
                         :: polled ++ [EvOLog "Error:"] /\
                (forall n a, EvDial n a None ∉ polled) /\
                o = Aborted (OsExit 1))
               \/ (exists e,
                     tr = pre ++ EvValidate rq1 (handle v') None
                              :: EvHTTPReverseProxy (proxy_options u rq1) port perr
                              :: EvOLog "[DEBUG] waiting for port"
                              :: polled ++
                                 [EvOLog "[DEBUG] pact provider verification";
                                  EvVerify
                                    (states_setup_url port (message_transport port rq1))
                                    (handle v') writer e] /\
                     o = Returned e)))).
Proof.
  intros Hrun v'.
  apply verifyProviderRaw_runs in Hrun as (tr1 & o1 & Hdummy & Hrun). cbv zeta in *.
  fold v' in Hdummy, Hrun.
  assert (Hafter : forall pre rq1 tr2,
            (exists verr, tr = pre ++ EvValidate rq1 (handle v') verr :: tr2 /\
               match verr with
               | Some e => tr2 = [] /\ o = Returned (Some e)
               | None =>
                   match url_Parse (ProviderBaseURL rq1) with
                   | None =>
                       tr2 = [EvOLog "unable to parse the provider URL"]
                       /\ o = Aborted Panic
                   | Some u =>
                       exists port perr tr3,
                         tr2 = EvHTTPReverseProxy (proxy_options u rq1) port perr :: tr3 /\
                         runs (orch_obs Value)
                           (verify_when_ready v'
                              (states_setup_url port (message_transport port rq1))
                              writer port) tr3 o
                   end
               end) ->
            (exists e, tr = pre ++ [EvValidate rq1 (handle v') (Some e)]
                       /\ o = Returned (Some e))
            \/ (url_Parse (ProviderBaseURL rq1) = None /\
                tr = pre ++ [EvValidate rq1 (handle v') None;
                             EvOLog "unable to parse the provider URL"] /\
                o = Aborted Panic)
            \/ (exists u port perr polled,
                  url_Parse (ProviderBaseURL rq1) = Some u /\
                  (forall n a e, EvDial n a e ∈ polled ->
                     n = "tcp" /\ a = "localhost" +:+ ":" +:+ pretty port) /\
                  Forall port_wait_event polled /\
                  ((tr = pre ++ EvValidate rq1 (handle v') None
                             :: EvHTTPReverseProxy (proxy_options u rq1) port perr
                             :: EvOLog "[DEBUG] waiting for port"
                             :: polled ++ [EvOLog "Error:"] /\
                    (forall n a, EvDial n a None ∉ polled) /\
                    o = Aborted (OsExit 1))
                   \/ (exists e,
                         tr = pre ++ EvValidate rq1 (handle v') None
                                  :: EvHTTPReverseProxy (proxy_options u rq1) port perr
                                  :: EvOLog "[DEBUG] waiting for port"
                                  :: polled ++
                                     [EvOLog "[DEBUG] pact provider verification";
                                      EvVerify
                                        (states_setup_url port
                                           (message_transport port rq1))
                                        (handle v') writer e] /\
                         o = Returned e)))).
  { intros pre rq1 tr2 ([e|] & -> & Hrest).
    { destruct Hrest as [-> ->]. left. eauto. }
    destruct (url_Parse (ProviderBaseURL rq1)) as [u|] eqn:Hu;
      [|destruct Hrest as [-> ->]; right; left; eauto].
    destruct Hrest as (port & perr & tr3 & -> & Hready). right. right.
    unfold verify_when_ready in Hready.
    apply runs_bind in Hready
      as [(wait & portErr & tr4 & Hwait & Hready & ->)|(s & Hwait & _)];
      pose proof (WaitForPort_runs _ _ _ _ _ _ _ Hwait) as [Hkinds _];
      apply WaitForPort_dials in Hwait
        as (polled & -> & Hdials & [[? (pre' & -> & Hpre')]|[? (Hnone & pre' & ->)]]);
      simplify_eq.
    - exists u, port, perr, (pre' ++ [EvDial "tcp" ("localhost" +:+ ":" +:+ pretty port) None]).
      split; [done|]. split; [done|]. split; [by inversion Hkinds|]. right.
      unfold olog in Hready. simpl in Hready.
      destruct Hready as ([] & t1 & -> & e & t2 & -> & -> & ->).
      by exists e.
    - exists u, port, perr,
        (pre' ++ [EvOLog "[ERROR] expected server to start < %s. %s"]).
      split; [done|]. split; [done|]. split; [by inversion Hkinds|]. left.
      unfold log_Fatal, olog in Hready. simpl in Hready.
      by destruct Hready as ([] & t1 & -> & -> & ->). }
  apply dummy_provider_runs in Hdummy
    as [(Hbase & -> & ->)|(Hbase & p & [[-> ->]|(e & -> & ->)])].
  - right. exists [], rq. split; [by left|].
    destruct Hrun as (verr & tr2 & -> & Hrun). apply (Hafter _ _ tr2). eauto.
  - right. eexists _, _. split; [right; eauto|].
    destruct Hrun as (verr & tr2 & -> & Hrun). apply (Hafter _ _ tr2). eauto.
  - left. destruct Hrun as [-> ->]. eauto.
Qed.

(** Peel the cases of [verifyProviderRaw_cases]. *)
Ltac orchestrator_cases Hrun :=
  let Hpre := fresh "Hpre" in
  let Hall := fresh "Hkinds" in
  apply verifyProviderRaw_cases in Hrun; cbv zeta in Hrun;
  destruct Hrun as [(? & ? & ? & -> & ->)|(? & ? & Hpre & Hrun)];
  [|destruct Hpre as [(? & -> & ->)|(? & ? & -> & ->)];
    destruct Hrun as [(? & -> & ->)|[(? & -> & ->)
                      |(? & ? & ? & ? & ? & ? & Hall
                        & [(-> & ? & ->)|(? & -> & ->)])]];
    try rewrite Forall_forall in Hall].

(** X7.  [validateConfig] never fails; afterwards the timeout is not 0
    and the host name is not empty: 10s and "localhost" where they were
    unset, the caller's values where they were set; the handle is kept;
    and validating again changes nothing. *)
Theorem validateConfig_fills_defaults_once v :
  let v' := (validateConfig v).1 in
  (validateConfig v).2 = None /\
  ClientTimeout v' = (if decide (ClientTimeout v = 0) then 10 * Second else ClientTimeout v) /\
  Hostname v' = (if decide (Hostname v = "") then "localhost" else Hostname v) /\
  handle v' = handle v /\
  ClientTimeout v' ≠ 0 /\ Hostname v' ≠ "" /\
  validateConfig v' = (v', None).
Proof.
  destruct v as [timeout host h]. unfold validateConfig. simpl.
  repeat case_decide; simpl in *; repeat case_decide; simpl in *;
    split_and!; try done; try (by rewrite ?decide_True, ?decide_False by done).
Qed.

(** X9.  When the request does not validate, [verifyProviderRaw]
    returns the validation error, and that call is its last: the proxy is
    not started, no port is dialled and the engine is not run. *)
Theorem invalid_request_returns_before_proxy v rq writer tr o rq1 h e :
  runs (orch_obs Value) (verifyProviderRaw v rq writer) tr o ->
  EvValidate rq1 h (Some e) ∈ tr ->
  o = Returned (Some e) /\
  (exists pre, tr = pre ++ [EvValidate rq1 h (Some e)]) /\
  (forall opts port perr, EvHTTPReverseProxy opts port perr ∉ tr) /\
  (forall network addr err, EvDial network addr err ∉ tr) /\
  (forall rq' h' w err, EvVerify rq' h' w err ∉ tr).
Proof.
  intros Hrun Hin. orchestrator_cases Hrun; which_event Hkinds.
  all: (split_and!; [done|eauto|..]); intros; intro; by which_event I.
Qed.

(** X10.  When the request validates but its base URL, the caller's or
    the dummy server's, does not parse, [verifyProviderRaw] logs and
    panics right after the validation: the proxy is not started and the
    engine is not run. *)
Theorem unparsable_base_url_panics v rq writer tr o rq1 h :
  runs (orch_obs Value) (verifyProviderRaw v rq writer) tr o ->
  EvValidate rq1 h None ∈ tr ->
  url_Parse (ProviderBaseURL rq1) = None ->
  o = Aborted Panic /\
  (exists pre, tr = pre ++ [EvValidate rq1 h None;
                            EvOLog "unable to parse the provider URL"]) /\
  (forall opts port perr, EvHTTPReverseProxy opts port perr ∉ tr) /\
  (forall rq' h' w err, EvVerify rq' h' w err ∉ tr).
Proof.
  intros Hrun Hin Hparse. orchestrator_cases Hrun; which_event Hkinds.
  all: (split_and!; [done|eauto|..]); intros; intro; by which_event I.
Qed.

(** X11.  What [verifyProviderRaw] returns is either the error of a
    failed validation, or what the engine returned, the engine then being
    its last call and called once, with the verifier's handle and the
    caller's writer.  So it returns nil only when the engine ran and
    returned nil. *)
Theorem returns_validation_error_or_engine_result v rq writer tr res :
  runs (orch_obs Value) (verifyProviderRaw v rq writer) tr (Returned res) ->
  (exists rq1 pre e,
     res = Some e /\ tr = pre ++ [EvValidate rq1 (handle v) (Some e)] /\
     forall rq' h w err, EvVerify rq' h w err ∉ tr)
  \/ (exists rq' pre,
        tr = pre ++ [EvVerify rq' (handle v) writer res] /\
        forall rq'' h w err, EvVerify rq'' h w err ∉ pre).
Proof.
  intros Hrun. remember (Returned res) as o eqn:Ho.
  assert (Hhandle : handle (validateConfig v).1 = handle v).
  { destruct v. unfold validateConfig. simpl. by repeat case_decide. }
  orchestrator_cases Hrun; rewrite ?Hhandle; simplify_eq.
  1,3: left; eexists _, _, _; (split_and!; [done..|]); intros; intro; by which_event I.
  all: right;
    match goal with
    | |- ∃ _ _, ?a ++ ?b :: ?c :: ?d :: ?p ++ [?l; EvVerify ?r _ _ _] = _ /\ _ =>
        exists r, (a ++ b :: c :: d :: p ++ [l])
    end;
    (split; [by rewrite <- ?app_assoc; simpl; rewrite <- ?app_assoc|]);
    intros; intro; by which_event Hkinds.
Qed.

(** X12.  In every execution that reaches the engine, the request it is
    handed has the caller's hooks, handlers, filter and TLS configuration
    unchanged, and the caller's provider-states URL unless that is empty
    and a state handler is registered: then it is
    [http://localhost:<proxy port>/__setup]. *)
Theorem engine_request_states_url_defaulted v rq writer tr o rq' h w e opts port perr :
  runs (orch_obs Value) (verifyProviderRaw v rq writer) tr o ->
  EvVerify rq' h w e ∈ tr ->
  EvHTTPReverseProxy opts port perr ∈ tr ->
  ProviderStatesSetupURL rq' =
    (if decide (ProviderStatesSetupURL rq = ""
                /\ (1 <= size (StateHandlers rq))%nat)
     then "http://localhost:" +:+ pretty port +:+ "/__setup"
     else ProviderStatesSetupURL rq) /\
  BeforeEach rq' = BeforeEach rq /\ AfterEach rq' = AfterEach rq /\
  StateHandlers rq' = StateHandlers rq /\ MessageHandlers rq' = MessageHandlers rq /\
  RequestFilter rq' = RequestFilter rq /\ CustomTLSConfig rq' = CustomTLSConfig rq.
Proof.
  intros Hrun Hverify Hproxy.
  orchestrator_cases Hrun; which_event Hkinds.
  all: unfold states_setup_url, message_transport.
  all: repeat case_decide; simpl in *; split_and!; try done; naive_solver lia.
Qed.

(** X13.  The proxy is started at most once, only after the request
    validated, with the setup path as its internal prefix, the request's
    TLS configuration, and as middlewares, in this order: before-each if
    the hook is set, after-each if the hook is set, the state-handler
    bridge if a state handler is registered, the message bridge if a
    message handler is registered, the request filter if set. *)
Theorem proxy_options_from_request v rq writer tr o opts port perr :
  runs (orch_obs Value) (verifyProviderRaw v rq writer) tr o ->
  EvHTTPReverseProxy opts port perr ∈ tr ->
  InternalRequestPathPrefix opts = "/__setup" /\
  opt_CustomTLSConfig opts = CustomTLSConfig rq /\
  opt_Middleware opts =
    option_list (beforeEachMiddleware <$> BeforeEach rq) ++
    option_list (afterEachMiddleware <$> AfterEach rq) ++
    (if decide (size (StateHandlers rq) = 0)%nat then []
     else [stateHandlerMiddleware (StateHandlers rq)]) ++
    (if decide (size (MessageHandlers rq) = 0)%nat then []
     else [message_CreateMessageHandler (MessageHandlers rq)]) ++
    option_list (RequestFilter rq) /\
  (exists rq1 pre post,
     tr = pre ++ EvValidate rq1 (handle v) None
              :: EvHTTPReverseProxy opts port perr :: post /\
     (forall opts' port' perr', EvHTTPReverseProxy opts' port' perr' ∉ pre) /\
     (forall opts' port' perr', EvHTTPReverseProxy opts' port' perr' ∉ post)).
Proof.
  intros Hrun Hproxy.
  assert (Hhandle : handle (validateConfig v).1 = handle v).
  { destruct v. unfold validateConfig. simpl. by repeat case_decide. }
  assert (Hlist : forall base rq1,
            rq1 = rq \/ rq1 = set_ProviderBaseURL base rq ->
            middlewares rq1 =
            option_list (beforeEachMiddleware <$> BeforeEach rq) ++
            option_list (afterEachMiddleware <$> AfterEach rq) ++
            (if decide (size (StateHandlers rq) = 0)%nat then []
             else [stateHandlerMiddleware (StateHandlers rq)]) ++
            (if decide (size (MessageHandlers rq) = 0)%nat then []
             else [message_CreateMessageHandler (MessageHandlers rq)]) ++
            option_list (RequestFilter rq)).
  { intros base rq1 [->| ->]; unfold middlewares; simpl;
      destruct (BeforeEach rq), (AfterEach rq), (RequestFilter rq);
      repeat case_decide; simpl; try done; lia. }
  orchestrator_cases Hrun; rewrite ?Hhandle; which_event Hkinds.
  all: split_and!;
    [done|done|
     unfold proxy_options; simpl;
     first [by apply (Hlist ""); left|by eapply Hlist; right]|].
  all: match goal with
       | |- ∃ _ _ _, ?a ++ EvValidate ?r _ _ :: _ :: ?post = _ /\ _ =>
           exists r, a, post
       end.
  all: split; [done|].
  all: split; intros; intro; by which_event Hkinds.
Qed.

(** X14.  The error the proxy returns on start is not looked at: once
    the proxy call has returned, with or without an error, the wait for
    the port it returned begins, and every dial of the run is over tcp to
    [localhost:<that port>], whatever the verifier's host name is. *)
Theorem proxy_error_ignored_then_wait_on_localhost v rq writer tr o opts port perr :
  runs (orch_obs Value) (verifyProviderRaw v rq writer) tr o ->
  EvHTTPReverseProxy opts port perr ∈ tr ->
  (exists pre post,
     tr = pre ++ EvHTTPReverseProxy opts port perr
              :: EvOLog "[DEBUG] waiting for port" :: post) /\
  (forall network addr err,
     EvDial network addr err ∈ tr ->
     network = "tcp" /\ addr = "localhost:" +:+ pretty port).
Proof.
  intros Hrun Hproxy.
  orchestrator_cases Hrun; which_event Hkinds.
  all: split;
    [match goal with
     | |- ∃ _ _, ?a ++ ?b :: _ :: _ :: ?post = _ =>
         exists (a ++ [b]), post; by rewrite <- app_assoc
     end|].
  all: intros network addr err Hdial; which_event I; eauto.
Qed.

(** X15.  [verifyProviderRaw] stops without returning in three ways
    only: it panics when no free port can be allocated, its last call then
    being that log line; it panics when the validated request's base URL
    does not parse, right after the validation; and it exits with code 1
    when the wait for the proxy port fails, no dial having succeeded. *)
Theorem stops_only_on_three_failures v rq writer tr s :
  runs (orch_obs Value) (verifyProviderRaw v rq writer) tr (Aborted s) ->
  (s = Panic /\ ProviderBaseURL rq = "" /\
   exists p e,
     tr = [EvOLog "[DEBUG] setting up a dummy server for verification, as none was provided";
           EvGetFreePort p (Some e);
           EvOLog "unable to allocate a port for verification:"])
  \/ (s = Panic /\
      exists pre rq1,
        url_Parse (ProviderBaseURL rq1) = None /\
        tr = pre ++ [EvValidate rq1 (handle v) None;
                     EvOLog "unable to parse the provider URL"])
  \/ (s = OsExit 1 /\
      (exists pre, tr = pre ++ [EvOLog "Error:"]) /\
      (exists opts port perr, EvHTTPReverseProxy opts port perr ∈ tr) /\
      forall network addr, EvDial network addr None ∉ tr).
Proof.
  intros Hrun. remember (Aborted s) as o eqn:Ho.
  assert (Hhandle : handle (validateConfig v).1 = handle v).
  { destruct v. unfold validateConfig. simpl. by repeat case_decide. }
  orchestrator_cases Hrun; rewrite ?Hhandle; simplify_eq.
  - left. eauto 10.
  - right. left. eauto 10.
  - right. right. split; [done|]. split_and!.
    + match goal with
      | |- ∃ _, ?a ++ ?b :: ?c :: ?d :: ?p ++ [?l] = _ =>
          by exists (a ++ b :: c :: d :: p)
      end.
    + eexists _, _, _. apply elem_of_app. right.
      apply list_elem_of_further, list_elem_of_here.
    + intros network addr Hin. which_event I. set_solver.
  - right. left. eauto 10.
  - right. right. split; [done|]. split_and!.
    + match goal with
      | |- ∃ _, ?a ++ ?b :: ?c :: ?d :: ?p ++ [?l] = _ =>
          exists (a ++ b :: c :: d :: p); by rewrite <- app_assoc
      end.
    + eexists _, _, _. apply elem_of_app. right.
      apply list_elem_of_further, list_elem_of_here.
    + intros network addr Hin. which_event I. set_solver.
Qed.

End Orchestrator_more.

(** ** The test entry point *)

Section Test_entry_properties.

Context {Value : Type} `{!GoLib Value}.

Implicit Types (v : Verifier) (rq : VerifyRequest Value) (t : outputWriter).

Lemma in_test_runs {A} (p : Prog.t (OrchE Value) A) tr (o : Outcome A) :
  runs (test_obs Value) (in_test p) tr o <->
  exists tr0, runs (orch_obs Value) p tr0 o /\ tr = EvOrch <$> tr0.
Proof.
  revert tr. induction p as [a|s|X e k IH]; intros tr; simpl.
  - split; [intros [-> ->]; by exists []|].
    by intros (tr0 & [-> ->] & ->).
  - split; [intros [-> ->]; by exists []|].
    by intros (tr0 & [-> ->] & ->).
  - split.
    + intros (x & tr' & -> & (tr0 & Hrun & ->)%IH).
      exists (orch_obs Value X e x :: tr0). split; [|done]. eauto.
    + intros (tr0 & (x & tr' & -> & Hrun) & ->).
      exists x, (EvOrch <$> tr'). split; [done|]. apply IH. eauto.
Qed.

Lemma VerifyProvider_runs v t rq tr o :
  runs (test_obs Value) (VerifyProvider v t rq) tr o <->
  exists tr0,
    (exists s, runs (orch_obs Value) (verifyProviderRaw v rq t) tr0 (Aborted s) /\
               o = Aborted s /\ tr = EvOrch <$> tr0)
    \/ (exists res, runs (orch_obs Value) (verifyProviderRaw v rq t) tr0 (Returned res) /\
                    o = Returned res /\
                    tr = (EvOrch <$> tr0) ++
                         EvTRun "Provider pact verification"
                         :: match res with Some e => [EvTError e] | None => [] end).
Proof.
  unfold VerifyProvider. rewrite runs_bind. split.
  - intros [(tr1 & res & tr2 & (tr0 & Hraw & ->)%in_test_runs & Hrest & ->)
           |(s & (tr0 & Hraw & ->)%in_test_runs & ->)].
    + exists tr0. right. exists res. split; [done|].
      destruct res as [e|]; simpl in Hrest.
      * by destruct Hrest as ([] & ? & -> & [] & ? & -> & -> & ->).
      * by destruct Hrest as ([] & ? & -> & -> & ->).
    + exists tr0. left. eauto.
  - intros (tr0 & [(s & Hraw & -> & ->)|(res & Hraw & -> & ->)]).
    + right. exists s. split; [|done]. apply in_test_runs. eauto.
    + left. eexists _, res, _. split; [apply in_test_runs; eauto|]. split; [|done].
      destruct res as [e|]; simpl.
      * exists tt. eexists. split; [done|]. exists tt. eexists. by split.
      * exists tt. eexists. by split.
Qed.

(** X16.  When [VerifyProvider] returns, it returns what
    [verifyProviderRaw] returned; the subtest "Provider pact
    verification" has run once, after every call of the orchestrator, and
    [t.Error] was called in it exactly when that result is an error, with
    that error. *)
Theorem VerifyProvider_reports_the_returned_error v t rq tr res :
  runs (test_obs Value) (VerifyProvider v t rq) tr (Returned res) ->
  exists tr0,
    runs (orch_obs Value) (verifyProviderRaw v rq t) tr0 (Returned res) /\
    tr = (EvOrch <$> tr0) ++
         EvTRun "Provider pact verification"
         :: match res with Some e => [EvTError e] | None => [] end /\
    (forall e, EvTError e ∈ tr <-> res = Some e).
Proof.
  intros (tr0 & [(s & _ & ? & _)|(res' & Hraw & [= <-] & ->)])%VerifyProvider_runs;
    [done|].
  exists tr0. split; [done|]. split; [done|].
  intros e. rewrite elem_of_app, list_elem_of_fmap, elem_of_cons.
  destruct res as [e'|]; set_solver.
Qed.

(** X17.  When [verifyProviderRaw] panics or exits the process (no free
    port, a base URL that does not parse, a proxy port that is never
    reachable), [VerifyProvider] ends the same way: the subtest is not
    run and [t.Error] is not called. *)
Theorem VerifyProvider_reports_nothing_when_stopped v t rq tr s :
  runs (test_obs Value) (VerifyProvider v t rq) tr (Aborted s) ->
  (exists tr0,
     runs (orch_obs Value) (verifyProviderRaw v rq t) tr0 (Aborted s) /\
     tr = EvOrch <$> tr0) /\
  (forall name, EvTRun name ∉ tr) /\
  (forall e, EvTError e ∉ tr).
Proof.
  intros (tr0 & [(s' & Hraw & [= <-] & ->)|(res & _ & ? & _)])%VerifyProvider_runs;
    [|done].
  split; [eauto|]. split; intros ?; rewrite list_elem_of_fmap; naive_solver.
Qed.

End Test_entry_properties.

(** ** [v3/log.go] *)

(** X18.  Whatever calls of [initLogging] and [SetLogLevel] are made on
    the package as declared, if none panics then the filter is either
    still nil, with the logger's output untouched, or it has the five
    levels in their order, a minimum level that is one of them, and is the
    logger's output. *)
Theorem v3_filter_levels_invariant (ops : list v3.Op) (p : v3.Package) :
  v3.after ops v3.declared = Returned p ->
  v3.defaultLogLevel p = "INFO" /\
  match v3.logFilter p with
  | None => v3.log_output p = v3.DefaultOutput
  | Some f =>
      v3.Levels f = ["TRACE"; "DEBUG"; "INFO"; "WARN"; "ERROR"] /\
      v3.MinLevel f ∈ v3.Levels f /\
      v3.log_output p = v3.ThroughLogFilter
  end.
Proof.
  assert (Hinv : forall ops p0 p1,
            v3.after ops p0 = Returned p1 ->
            (v3.defaultLogLevel p0 = "INFO" /\
             match v3.logFilter p0 with
             | None => v3.log_output p0 = v3.DefaultOutput
             | Some f =>
                 v3.Levels f = ["TRACE"; "DEBUG"; "INFO"; "WARN"; "ERROR"] /\
                 v3.MinLevel f ∈ v3.Levels f /\
                 v3.log_output p0 = v3.ThroughLogFilter
             end) ->
            v3.defaultLogLevel p1 = "INFO" /\
            match v3.logFilter p1 with
            | None => v3.log_output p1 = v3.DefaultOutput
            | Some f =>
                v3.Levels f = ["TRACE"; "DEBUG"; "INFO"; "WARN"; "ERROR"] /\
                v3.MinLevel f ∈ v3.Levels f /\
                v3.log_output p1 = v3.ThroughLogFilter
            end).
  { clear. induction ops as [|[|level] ops IH]; intros p0 p1 Hafter Hp0; simpl in Hafter.
    - by simplify_eq.
    - apply (IH _ _ Hafter). destruct p0 as [[f|] d out]; simpl in *; [done|].
      destruct Hp0 as [-> _]. split_and!; try done. set_solver.
    - unfold v3.SetLogLevel in Hafter. case_decide as Hlevel.
      + destruct p0 as [[f|] d out]; simpl in *; [|done].
        apply (IH _ _ Hafter). simpl. destruct Hp0 as (-> & -> & _ & ->).
        split_and!; try done. set_solver.
      + by apply (IH _ _ Hafter). }
  intros Hafter. by apply (Hinv _ _ _ Hafter).
Qed.

(** X19.  On a package whose filter is nil, once [initLogging] has run
    [SetLogLevel] does not panic: it returns nil exactly for the levels
    the filter was created with, the filter's minimum level is then the
    level given and nothing else changes; for any other level it returns
    the error naming that level and changes nothing. *)
Theorem v3_SetLogLevel_accepts_the_filter_levels (p : v3.Package) (level : string) :
  v3.logFilter p = None ->
  let p1 := (v3.initLogging p).1 in
  exists f p2 err,
    v3.logFilter p1 = Some f /\
    v3.SetLogLevel level p1 = Returned (p2, err) /\
    (err = None <-> level ∈ v3.Levels f) /\
    (level ∈ v3.Levels f ->
       v3.logFilter p2 = Some (v3.SetMinLevel level f) /\
       v3.defaultLogLevel p2 = v3.defaultLogLevel p1 /\
       v3.log_output p2 = v3.log_output p1) /\
    (level ∉ v3.Levels f ->
       p2 = p1 /\ err = Some (Errorf v3.invalid_logLevel [ArgString level])).
Proof.
  intros Hnil p1. unfold p1, v3.initLogging, v3.SetLogLevel. rewrite Hnil. simpl.
  case_decide as Hlevel; eexists _, _, _; (split; [done|]); (split; [done|]);
    split_and!; try done; set_solver.
Qed.

(** X20.  A level set by [SetLogLevel] survives [initLogging]: after a
    successful [SetLogLevel], the filter's minimum level is the level
    given, and calling [initLogging] again leaves the package as it is. *)
Theorem v3_level_survives_initLogging (p p' : v3.Package) (level : string) :
  v3.SetLogLevel level p = Returned (p', None) ->
  (exists f, v3.logFilter p' = Some f /\ v3.MinLevel f = level) /\
  (v3.initLogging p').1 = p' /\
  (v3.initLogging (v3.initLogging p').1).1 = p'.
Proof.
  unfold v3.SetLogLevel, v3.initLogging. case_decide; [|done].
  destruct (v3.logFilter p) as [f|] eqn:Hf; [|done].
  intros [= <-]. simpl. eauto.
Qed.

(** X21.  A sequence of calls on the package as declared panics exactly
    when [SetLogLevel] is called with one of the five levels before any
    [initLogging]: the filter is then still nil. *)
Theorem v3_panics_iff_level_set_before_init (ops : list v3.Op) :
  (exists s, v3.after ops v3.declared = Aborted s) <->
  exists pre level rest,
    ops = pre ++ v3.Set_ level :: rest /\
    (v3.Init ∉ pre) /\
    level ∈ ["TRACE"; "DEBUG"; "INFO"; "WARN"; "ERROR"].
Proof.
  assert (Hset : forall p, is_Some (v3.logFilter p) ->
            forall ops, exists p', v3.after ops p = Returned p'
                                   /\ is_Some (v3.logFilter p')).
  { intros p Hp ops'. revert p Hp.
    induction ops' as [|[|level] ops' IH]; intros p [f Hf]; simpl.
    - eauto.
    - apply IH. unfold v3.initLogging. rewrite Hf. simpl. eauto.
    - unfold v3.SetLogLevel. rewrite Hf. case_decide; apply IH; simpl; eauto. }
  assert (Hnil : forall ops' p, v3.logFilter p = None ->
            (exists s, v3.after ops' p = Aborted s) <->
            exists pre level rest,
              ops' = pre ++ v3.Set_ level :: rest /\
              (v3.Init ∉ pre) /\
              level ∈ ["TRACE"; "DEBUG"; "INFO"; "WARN"; "ERROR"]).
  { induction ops' as [|[|level] ops' IH]; intros p Hp; simpl.
    - split; [by intros [? ?]|]. intros (pre & ? & ? & ? & _). by destruct pre.
    - unfold v3.initLogging. rewrite Hp. simpl. split.
      + intros [s Hs].
        match type of Hs with
        | v3.after _ ?p1 = _ =>
            destruct (Hset p1) with (ops := ops') as (p' & Hp' & _); [simpl; eauto|]
        end.
        congruence.
      + intros ([|op pre] & level & rest & Hops & Hpre & _); simplify_eq/=.
        set_solver.
    - unfold v3.SetLogLevel. rewrite Hp. case_decide as Hlevel.
      + split; [intros _|eauto]. exists [], level, ops'. split_and!; [done| |].
        * set_solver.
        * set_solver.
      + rewrite (IH p Hp). split.
        * intros (pre & level' & rest & -> & Hpre & Hin).
          exists (v3.Set_ level :: pre), level', rest. split_and!; [done| |done].
          set_solver.
        * intros ([|op pre] & level' & rest & Hops & Hpre & Hin); simplify_eq/=.
          -- exfalso. apply Hlevel. set_solver.
          -- exists pre, level', rest. split_and!; [done| |done]. set_solver. }
  by apply Hnil.
Qed.

(** ** The further properties, at concrete runs *)

(** X1 at the setup request with a failing before hook around the
    state-handler bridge. *)
Lemma beforeEach_then_any_next_witness :
  let run := serve Cases.failing_before setup_request in
  runs (http_obs value) (Cases.failing_before setup_request) run.1 run.2 /\
  exists pre rest,
    run.1 = pre ++ rest /\
    runs (http_obs value) (stateHandlerMiddleware registry downstream setup_request)
      rest run.2 /\
    hooks_called pre
      = (if decide (URL_Path setup_request = providerStatesSetupPath)
         then [HookFunc 1] else []).
Proof.
  intros run.
  assert (Hrun : runs (http_obs value) (Cases.failing_before setup_request) run.1 run.2)
    by apply exec_runs.
  destruct (beforeEach_then_any_next (HookFunc 1)
              (stateHandlerMiddleware registry downstream) setup_request _ _ Hrun)
    as (pre & rest & Htr & Hnext & _ & Hhooks & _).
  exact (conj Hrun (ex_intro _ pre (ex_intro _ rest (conj Htr (conj Hnext Hhooks))))).
Defined.

(** X2 at a provider request with a failing after hook. *)
Lemma afterEach_after_any_next_witness :
  let run := serve (afterEachMiddleware (HookFunc 1) downstream) users_request in
  runs (http_obs value) (afterEachMiddleware (HookFunc 1) downstream users_request)
    run.1 run.2 /\
  exists served post,
    run.1 = served ++ post /\
    runs (http_obs value) (downstream users_request) served (Returned tt) /\
    hooks_called post
      = (if decide (URL_Path users_request = providerStatesSetupPath)
         then [] else [HookFunc 1]).
Proof.
  intros run.
  assert (Hrun : runs (http_obs value)
                   (afterEachMiddleware (HookFunc 1) downstream users_request)
                   run.1 run.2) by apply exec_runs.
  destruct (afterEach_after_any_next (HookFunc 1) downstream users_request _ _ Hrun)
    as [(s & Ho & _)|(served & post & _ & Htr & Hnext & _ & Hhooks & _)].
  - vm_compute in Ho. discriminate Ho.
  - exact (conj Hrun (ex_intro _ served (ex_intro _ post
             (conj Htr (conj Hnext Hhooks))))).
Defined.

(** X3 at a provider request. *)
Lemma stateHandler_forwards_other_paths_witness :
  let run := serve (stateHandlerMiddleware registry downstream) users_request in
  URL_Path users_request ≠ providerStatesSetupPath /\
  runs (http_obs value) (stateHandlerMiddleware registry downstream users_request)
    run.1 run.2 /\
  exists rest,
    run.1 = EvLog "[TRACE] skipping state handler for request" :: rest /\
    runs (http_obs value) (downstream users_request) rest run.2.
Proof.
  intros run.
  assert (Hpath : URL_Path users_request ≠ providerStatesSetupPath)
    by (vm_compute; discriminate).
  assert (Hrun : runs (http_obs value)
                   (stateHandlerMiddleware registry downstream users_request)
                   run.1 run.2) by apply exec_runs.
  exact (conj Hpath (conj Hrun
           (proj1 (stateHandler_forwards_other_paths registry downstream users_request
                     run.1 run.2 Hpath) Hrun))).
Defined.

(** X4 at the setup request: only the before hook is called. *)
Lemma pipeline_one_hook_per_request_witness :
  let run := serve Cases.pipeline setup_request in
  runs (http_obs value) (Cases.pipeline setup_request) run.1 run.2 /\
  run.2 = Returned tt /\
  hooks_called run.1
    = [if decide (URL_Path setup_request = providerStatesSetupPath)
       then HookFunc 0 else HookFunc 1] /\
  requests_forwarded run.1
    = (if decide (URL_Path setup_request = providerStatesSetupPath)
       then [] else [setup_request]).
Proof.
  intros run.
  assert (Hrun : runs (http_obs value) (Cases.pipeline setup_request) run.1 run.2)
    by apply exec_runs.
  exact (conj Hrun
           (pipeline_one_hook_per_request (HookFunc 0) (HookFunc 1) registry
              setup_request run.1 run.2 Hrun)).
Defined.

(** X5 at the setup request with a failing before hook: the handler's
    values are written, with status 500 and without the content type. *)
Lemma beforeEach_error_fixes_status_500_witness :
  let rest := drop 2 (serve Cases.failing_before setup_request).1 in
  let tr := EvLog "[DEBUG] executing before hook"
            :: EvHook (HookFunc 1) (Some failed) :: rest in
  runs (http_obs value) (Cases.failing_before setup_request) tr (Returned tt) /\
  URL_Path setup_request = providerStatesSetupPath /\
  wroteHeader newResponse = false /\
  status (response newResponse tr) = 500 /\
  sentHeader (response newResponse tr) = [] /\
  written (response newResponse tr) = user_id_json.
Proof.
  intros rest tr.
  assert (Hrun : runs (http_obs value) (Cases.failing_before setup_request)
                   tr (Returned tt)) by run_here http_env.
  assert (Hpath : URL_Path setup_request = providerStatesSetupPath) by reflexivity.
  assert (Hfresh : wroteHeader newResponse = false) by reflexivity.
  assert (Hwritten : written (response newResponse tr) = user_id_json)
    by (vm_compute; reflexivity).
  destruct (beforeEach_error_fixes_status_500 (HookFunc 1)
              (stateHandlerMiddleware registry downstream) setup_request failed rest
              (Returned tt) newResponse Hrun Hpath Hfresh) as (Hstatus & Hsent & _).
  exact (conj Hrun (conj Hpath (conj Hfresh (conj Hstatus (conj Hsent Hwritten))))).
Defined.

(** X6 at a provider request with a failing after hook, the downstream
    handler having written nothing. *)
Lemma afterEach_cannot_change_sent_status_witness :
  let run := serve (afterEachMiddleware (HookFunc 1) downstream) users_request in
  runs (http_obs value) (afterEachMiddleware (HookFunc 1) downstream users_request)
    run.1 (Returned tt) /\
  exists served post,
    run.1 = served ++ post /\
    (wroteHeader (response newResponse served) = true ->
       status (response newResponse run.1) = status (response newResponse served) /\
       sentHeader (response newResponse run.1)
         = sentHeader (response newResponse served)) /\
    (wroteHeader (response newResponse served) = false ->
       forall e, EvHook (HookFunc 1) (Some e) ∈ post ->
       status (response newResponse run.1) = 500).
Proof.
  intros run.
  assert (Hrun : runs (http_obs value)
                   (afterEachMiddleware (HookFunc 1) downstream users_request)
                   run.1 (Returned tt)) by run_here http_env.
  destruct (afterEach_cannot_change_sent_status (HookFunc 1) downstream users_request
              run.1 newResponse Hrun) as (served & post & Htr & _ & Hsent & Hfresh).
  exact (conj Hrun (ex_intro _ served (ex_intro _ post
           (conj Htr (conj Hsent Hfresh))))).
Defined.

(** X8 at a port that answers the first dial. *)
Lemma WaitForPort_nil_after_successful_dial_witness :
  let run := exec (orch_obs value) (Cases.orch_env Cases.all_well)
               (WaitForPort proxy_port "tcp" "localhost" (100 * Millisecond) "no proxy") in
  runs (orch_obs value)
    (WaitForPort proxy_port "tcp" "localhost" (100 * Millisecond) "no proxy")
    run.1 run.2 /\
  run.2 = Returned None /\
  exists polled,
    run.1 = EvOLog "[DEBUG] waiting for port" :: polled /\
    (forall n a e, EvDial n a e ∈ polled ->
       n = "tcp" /\ a = "localhost" +:+ ":" +:+ pretty proxy_port).
Proof.
  intros run.
  assert (Hrun : runs (orch_obs value)
                   (WaitForPort proxy_port "tcp" "localhost" (100 * Millisecond) "no proxy")
                   run.1 run.2) by apply exec_runs.
  assert (Ho : run.2 = Returned None) by (vm_compute; reflexivity).
  destruct (WaitForPort_nil_after_successful_dial proxy_port "tcp" "localhost"
              (100 * Millisecond) "no proxy" run.1 run.2 Hrun)
    as (polled & Htr & Hdials & _).
  exact (conj Hrun (conj Ho (ex_intro _ polled (conj Htr Hdials)))).
Defined.

(** X9 at a request that does not validate. *)
Lemma invalid_request_returns_before_proxy_witness :
  let rq := request provider_url ∅ in
  let run := Cases.orchestrate verifier Cases.invalid rq in
  runs (orch_obs value) (verifyProviderRaw verifier rq Cases.t) run.1 run.2 /\
  EvValidate rq (NativeVerifier "pact-go" "v2") (Some failed) ∈ run.1 /\
  run.2 = Returned (Some failed) /\
  (forall opts port perr, EvHTTPReverseProxy opts port perr ∉ run.1) /\
  (forall rq' h' w err, EvVerify rq' h' w err ∉ run.1).
Proof.
  intros rq run.
  assert (Hrun : runs (orch_obs value) (verifyProviderRaw verifier rq Cases.t)
                   run.1 run.2) by apply exec_runs.
  assert (Hin : EvValidate rq (NativeVerifier "pact-go" "v2") (Some failed) ∈ run.1)
    by (vm_compute; apply list_elem_of_here).
  destruct (invalid_request_returns_before_proxy verifier rq Cases.t run.1 run.2
              rq _ failed Hrun Hin) as (Ho & _ & Hproxy & _ & Hverify).
  exact (conj Hrun (conj Hin (conj Ho (conj Hproxy Hverify)))).
Defined.

(** X10 at a base URL that does not parse. *)
Lemma unparsable_base_url_panics_witness :
  let rq := request "http://%zz" ∅ in
  let run := Cases.orchestrate verifier Cases.all_well rq in
  runs (orch_obs value) (verifyProviderRaw verifier rq Cases.t) run.1 run.2 /\
  EvValidate rq (NativeVerifier "pact-go" "v2") None ∈ run.1 /\
  url_Parse (ProviderBaseURL rq) = None /\
  run.2 = Aborted Panic /\
  (forall opts port perr, EvHTTPReverseProxy opts port perr ∉ run.1).
Proof.
  intros rq run.
  assert (Hrun : runs (orch_obs value) (verifyProviderRaw verifier rq Cases.t)
                   run.1 run.2) by apply exec_runs.
  assert (Hin : EvValidate rq (NativeVerifier "pact-go" "v2") None ∈ run.1)
    by (vm_compute; apply list_elem_of_here).
  assert (Hparse : url_Parse (ProviderBaseURL rq) = None) by (vm_compute; reflexivity).
  destruct (unparsable_base_url_panics verifier rq Cases.t run.1 run.2
              rq _ Hrun Hin Hparse) as (Ho & _ & Hproxy & _).
  exact (conj Hrun (conj Hin (conj Hparse (conj Ho Hproxy)))).
Defined.

(** X11 at an engine that reports a mismatch. *)
Lemma returns_validation_error_or_engine_result_witness :
  let rq := request provider_url ∅ in
  let run := Cases.orchestrate verifier Cases.pact_fails rq in
  runs (orch_obs value) (verifyProviderRaw verifier rq Cases.t)
    run.1 (Returned (Some Cases.mismatch)) /\
  exists rq' pre,
    run.1 = pre ++ [EvVerify rq' (handle verifier) Cases.t (Some Cases.mismatch)].
Proof.
  intros rq run.
  assert (Hrun : runs (orch_obs value) (verifyProviderRaw verifier rq Cases.t)
                   run.1 (Returned (Some Cases.mismatch)))
    by run_here (Cases.orch_env Cases.pact_fails).
  destruct (returns_validation_error_or_engine_result verifier rq Cases.t run.1
              (Some Cases.mismatch) Hrun)
    as [(rq1 & pre & e & _ & Htr & Hnone)|(rq' & pre & Htr & _)].
  - exfalso. apply (Hnone (states_setup_url proxy_port (message_transport proxy_port rq))
                      (handle verifier) Cases.t (Some Cases.mismatch)).
    vm_compute. do 6 apply list_elem_of_further. apply list_elem_of_here.
  - exact (conj Hrun (ex_intro _ rq' (ex_intro _ pre Htr))).
Defined.

(** X12 and X13 share a run: one state handler, a before hook, a TLS
    configuration, no provider-states URL. *)

(** X12: the engine sees the proxy's setup URL. *)
Lemma engine_request_states_url_defaulted_witness :
  let rq := Cases.with_state_handler in
  let run := Cases.orchestrate verifier Cases.all_well rq in
  let rq' := states_setup_url proxy_port (message_transport proxy_port rq) in
  let opts := proxy_options Cases.provider_URL rq in
  runs (orch_obs value) (verifyProviderRaw verifier rq Cases.t) run.1 run.2 /\
  EvVerify rq' (handle verifier) Cases.t None ∈ run.1 /\
  EvHTTPReverseProxy opts proxy_port None ∈ run.1 /\
  ProviderStatesSetupURL rq' =
    (if decide (ProviderStatesSetupURL rq = ""
                /\ (1 <= size (StateHandlers rq))%nat)
     then "http://localhost:" +:+ pretty proxy_port +:+ "/__setup"
     else ProviderStatesSetupURL rq) /\
  ProviderStatesSetupURL rq' = "http://localhost:50124/__setup".
Proof.
  intros rq run rq' opts.
  assert (Hrun : runs (orch_obs value) (verifyProviderRaw verifier rq Cases.t)
                   run.1 run.2) by apply exec_runs.
  assert (Htr : run.1 =
            [EvValidate rq (handle verifier) None;
             EvHTTPReverseProxy opts proxy_port None;
             EvOLog "[DEBUG] waiting for port";
             EvSelect TickFired;
             EvDial "tcp" "localhost:50124" None;
             EvOLog "[DEBUG] pact provider verification";
             EvVerify rq' (handle verifier) Cases.t None])
    by (vm_compute; reflexivity).
  assert (Hverify : EvVerify rq' (handle verifier) Cases.t None ∈ run.1)
    by (rewrite Htr; do 6 apply list_elem_of_further; apply list_elem_of_here).
  assert (Hproxy : EvHTTPReverseProxy opts proxy_port None ∈ run.1)
    by (rewrite Htr; apply list_elem_of_further; apply list_elem_of_here).
  assert (Hurl : ProviderStatesSetupURL rq' = "http://localhost:50124/__setup")
    by (vm_compute; reflexivity).
  destruct (engine_request_states_url_defaulted verifier rq Cases.t run.1 run.2
              rq' _ _ None opts proxy_port None Hrun Hverify Hproxy) as (Hdefault & _).
  exact (conj Hrun (conj Hverify (conj Hproxy (conj Hdefault Hurl)))).
Defined.

(** X13: the proxy gets the before-each and state-handler middlewares. *)
Lemma proxy_options_from_request_witness :
  let rq := Cases.with_state_handler in
  let run := Cases.orchestrate verifier Cases.all_well rq in
  let opts := proxy_options Cases.provider_URL rq in
  runs (orch_obs value) (verifyProviderRaw verifier rq Cases.t) run.1 run.2 /\
  EvHTTPReverseProxy opts proxy_port None ∈ run.1 /\
  InternalRequestPathPrefix opts = "/__setup" /\
  opt_CustomTLSConfig opts = Some (TLSConfigRef 0) /\
  opt_Middleware opts =
    option_list (beforeEachMiddleware <$> BeforeEach rq) ++
    option_list (afterEachMiddleware <$> AfterEach rq) ++
    (if decide (size (StateHandlers rq) = 0)%nat then []
     else [stateHandlerMiddleware (StateHandlers rq)]) ++
    (if decide (size (MessageHandlers rq) = 0)%nat then []
     else [message_CreateMessageHandler (MessageHandlers rq)]) ++
    option_list (RequestFilter rq).
Proof.
  intros rq run opts.
  assert (Hrun : runs (orch_obs value) (verifyProviderRaw verifier rq Cases.t)
                   run.1 run.2) by apply exec_runs.
  assert (Htr : (take 2 run.1) =
            [EvValidate rq (handle verifier) None;
             EvHTTPReverseProxy opts proxy_port None])
    by (vm_compute; reflexivity).
  assert (Hproxy : EvHTTPReverseProxy opts proxy_port None ∈ run.1).
  { apply (subseteq_take 2). rewrite Htr.
    apply list_elem_of_further, list_elem_of_here. }
  destruct (proxy_options_from_request verifier rq Cases.t run.1 run.2
              opts proxy_port None Hrun Hproxy) as (Hprefix & Htls & Hmiddleware & _).
  exact (conj Hrun (conj Hproxy (conj Hprefix (conj Htls Hmiddleware)))).
Defined.

(** X14 at a proxy that reports an error on start: the wait begins all
    the same, and the engine is run. *)
Lemma proxy_error_ignored_then_wait_on_localhost_witness :
  let rq := request provider_url ∅ in
  let run := Cases.orchestrate verifier Cases.proxy_start_error rq in
  let opts := proxy_options Cases.provider_URL rq in
  runs (orch_obs value) (verifyProviderRaw verifier rq Cases.t) run.1 run.2 /\
  EvHTTPReverseProxy opts proxy_port (Some failed) ∈ run.1 /\
  run.2 = Returned None /\
  exists pre post,
    run.1 = pre ++ EvHTTPReverseProxy opts proxy_port (Some failed)
                :: EvOLog "[DEBUG] waiting for port" :: post.
Proof.
  intros rq run opts.
  assert (Hrun : runs (orch_obs value) (verifyProviderRaw verifier rq Cases.t)
                   run.1 run.2) by apply exec_runs.
  assert (Hproxy : EvHTTPReverseProxy opts proxy_port (Some failed) ∈ run.1)
    by (vm_compute; apply list_elem_of_further, list_elem_of_here).
  assert (Ho : run.2 = Returned None) by (vm_compute; reflexivity).
  destruct (proxy_error_ignored_then_wait_on_localhost verifier rq Cases.t run.1 run.2
              opts proxy_port (Some failed) Hrun Hproxy) as (Hwait & _).
  exact (conj Hrun (conj Hproxy (conj Ho Hwait))).
Defined.

(** X16 at an engine that reports a mismatch: the subtest fails with it. *)
Lemma VerifyProvider_reports_the_returned_error_witness :
  let rq := request provider_url ∅ in
  let run := Cases.run_test verifier Cases.pact_fails rq in
  runs (test_obs value) (VerifyProvider verifier Cases.t rq)
    run.1 (Returned (Some Cases.mismatch)) /\
  exists tr0,
    run.1 = (EvOrch <$> tr0) ++
            [EvTRun "Provider pact verification"; EvTError Cases.mismatch].
Proof.
  intros rq run.
  assert (Hrun : runs (test_obs value) (VerifyProvider verifier Cases.t rq)
                   run.1 (Returned (Some Cases.mismatch)))
    by run_here (Cases.test_env Cases.pact_fails).
  destruct (VerifyProvider_reports_the_returned_error verifier Cases.t rq run.1
              (Some Cases.mismatch) Hrun) as (tr0 & _ & Htr & _).
  exact (conj Hrun (ex_intro _ tr0 Htr)).
Defined.

(** X17 at a proxy port that refuses every connection: the process exits
    and the test reports nothing. *)
Lemma VerifyProvider_reports_nothing_when_stopped_witness :
  let rq := request provider_url ∅ in
  let run := Cases.run_test hasty_verifier Cases.port_closed rq in
  runs (test_obs value) (VerifyProvider hasty_verifier Cases.t rq)
    run.1 (Aborted (OsExit 1)) /\
  (forall name, EvTRun name ∉ run.1) /\
  (forall e, EvTError e ∉ run.1).
Proof.
  intros rq run.
  assert (Hrun : runs (test_obs value) (VerifyProvider hasty_verifier Cases.t rq)
                   run.1 (Aborted (OsExit 1)))
    by run_here (Cases.test_env Cases.port_closed).
  destruct (VerifyProvider_reports_nothing_when_stopped hasty_verifier Cases.t rq
              run.1 (OsExit 1) Hrun) as (_ & Hnorun & Hnoerror).
  exact (conj Hrun (conj Hnorun Hnoerror)).
Defined.

(** X18 at: initialise, set DEBUG, initialise again. *)
Lemma v3_filter_levels_invariant_witness :
  let p := {| v3.logFilter :=
                Some {| v3.Levels := ["TRACE"; "DEBUG"; "INFO"; "WARN"; "ERROR"];
                        v3.MinLevel := "DEBUG"; v3.Writer := v3.Stderr |};
              v3.defaultLogLevel := "INFO";
              v3.log_output := v3.ThroughLogFilter |} in
  v3.after [v3.Init; v3.Set_ "DEBUG"; v3.Init] v3.declared = Returned p /\
  v3.defaultLogLevel p = "INFO" /\
  match v3.logFilter p with
  | None => v3.log_output p = v3.DefaultOutput
  | Some f =>
      v3.Levels f = ["TRACE"; "DEBUG"; "INFO"; "WARN"; "ERROR"] /\
      v3.MinLevel f ∈ v3.Levels f /\
      v3.log_output p = v3.ThroughLogFilter
  end.
Proof.
  intros p.
  assert (Hafter : v3.after [v3.Init; v3.Set_ "DEBUG"; v3.Init] v3.declared = Returned p)
    by (vm_compute; reflexivity).
  exact (conj Hafter (v3_filter_levels_invariant _ p Hafter)).
Defined.

(** X19 at the package as declared and the level WARN. *)
Lemma v3_SetLogLevel_accepts_the_filter_levels_witness :
  v3.logFilter v3.declared = None /\
  exists f p2 err,
    v3.logFilter (v3.initLogging v3.declared).1 = Some f /\
    v3.SetLogLevel "WARN" (v3.initLogging v3.declared).1 = Returned (p2, err) /\
    (err = None <-> "WARN" ∈ v3.Levels f).
Proof.
  assert (Hnil : v3.logFilter v3.declared = None) by reflexivity.
  destruct (v3_SetLogLevel_accepts_the_filter_levels v3.declared "WARN" Hnil)
    as (f & p2 & err & Hf & Hset & Hiff & _).
  exact (conj Hnil (ex_intro _ f (ex_intro _ p2 (ex_intro _ err
           (conj Hf (conj Hset Hiff)))))).
Defined.

(** X20 at ERROR set on the initialised package. *)
Lemma v3_level_survives_initLogging_witness :
  let p := (v3.initLogging v3.declared).1 in
  let p' := {| v3.logFilter :=
                 Some {| v3.Levels := ["TRACE"; "DEBUG"; "INFO"; "WARN"; "ERROR"];
                         v3.MinLevel := "ERROR"; v3.Writer := v3.Stderr |};
               v3.defaultLogLevel := "INFO";
               v3.log_output := v3.ThroughLogFilter |} in
  v3.SetLogLevel "ERROR" p = Returned (p', None) /\
  (exists f, v3.logFilter p' = Some f /\ v3.MinLevel f = "ERROR") /\
  (v3.initLogging p').1 = p'.
Proof.
  intros p p'.
  assert (Hset : v3.SetLogLevel "ERROR" p = Returned (p', None))
    by (vm_compute; reflexivity).
  destruct (v3_level_survives_initLogging p p' "ERROR" Hset) as (Hlevel & Hagain & _).
  exact (conj Hset (conj Hlevel Hagain)).
Defined.

(** X15 at a proxy port that refuses every connection. *)
Lemma stops_only_on_three_failures_witness :
  let rq := request provider_url ∅ in
  let run := Cases.orchestrate hasty_verifier Cases.port_closed rq in
  runs (orch_obs value) (verifyProviderRaw hasty_verifier rq Cases.t)
    run.1 (Aborted (OsExit 1)) /\
  (exists pre, run.1 = pre ++ [EvOLog "Error:"]) /\
  forall network addr, EvDial network addr None ∉ run.1.
Proof.
  intros rq run.
  assert (Hrun : runs (orch_obs value) (verifyProviderRaw hasty_verifier rq Cases.t)
                   run.1 (Aborted (OsExit 1)))
    by run_here (Cases.orch_env Cases.port_closed).
  destruct (stops_only_on_three_failures hasty_verifier rq Cases.t run.1 (OsExit 1) Hrun)
    as [(Hs & _)|[(Hs & _)|(_ & Hlast & _ & Hdials)]]; [discriminate Hs..|].
  exact (conj Hrun (conj Hlast Hdials)).
Defined.
